(** * Nextcloud Deck CLI: the normalizer, the date formatter and the renderers

    A shallow embedding of [nextcloud-deck-cli.py].

    - JSON objects are records whose optional keys are [option] fields;
      the values under a key have the type the Deck API gives them.
    - Exceptions are an error monad ([Py.result]); [try]/[except] is a
      handler on it.
    - The wall clock is a sequence of readings, consumed one per call of
      [datetime.now] through a state monad ([M]).
    - A [timedelta] is its exact count of microseconds.  A Python float
      is the rational number it stands for ([Q]); [total_seconds] and the
      float divisions round their exact result to the nearest double,
      ties to even ([Float.round]), and the comparisons, [math.ceil],
      [math.floor] and [int] are exact, as they are on doubles.  Only the
      overflow to infinity is left out: no date can get there.
    - Strings are byte strings, a non-ASCII character being its UTF-8
      bytes.
    - Library functions whose results the program only passes on
      ([dateutil]'s parser, [isoformat], [astimezone], [strftime],
      [int] on text, the HTTP session, [json.dumps]) are parameters. *)

From Stdlib Require Import ZArith QArith Qabs Qround.
From Stdlib Require Import Bool List String Ascii DecimalString.
From Stdlib Require Import Sorted Permutation Lia.
Import ListNotations.

Set Implicit Arguments.
Close Scope Q_scope.

(** ** The fragment of the Python runtime the program relies on *)

Module Py.

(** Exception classes that can travel through the modelled code. *)
Inductive exn : Type :=
| TypeError
| AttributeError
| ValueError
| OverflowError
| ParserError
| RequestException (msg : string).

Inductive result (A : Type) : Type :=
| Ok (a : A)
| Raise (e : exn).

Arguments Ok {A} a.
Arguments Raise {A} e.

Definition is_ok {A} (r : result A) : bool :=
  match r with Ok _ => true | Raise _ => false end.

Definition rbind {A B} (r : result A) (k : A -> result B) : result B :=
  match r with Ok a => k a | Raise e => Raise e end.

(** [try: body except Exception: handler]. *)
Definition try_except {A} (body : result A) (handler : exn -> result A) : result A :=
  match body with Ok a => Ok a | Raise e => handler e end.

(** A [for] loop (or comprehension) whose body can raise. *)
Fixpoint mapM {A B} (f : A -> result B) (l : list A) : result (list B) :=
  match l with
  | [] => Ok []
  | x :: rest =>
      rbind (f x) (fun y => rbind (mapM f rest) (fun ys => Ok (y :: ys)))
  end.

(** [d.get(key, default)] on an optional key. *)
Definition get_default {A} (v : option A) (d : A) : A :=
  match v with Some a => a | None => d end.

(** [sorted(l, key=key)]: ascending by key and stable. *)
Fixpoint insert_by {A} (key : A -> Z) (x : A) (l : list A) : list A :=
  match l with
  | [] => [x]
  | y :: rest =>
      if (key y <? key x)%Z then y :: insert_by key x rest else x :: l
  end.

Fixpoint sorted {A} (l : list A) (key : A -> Z) : list A :=
  match l with
  | [] => []
  | x :: rest => insert_by key x (sorted rest key)
  end.

(** [str(n)] for an [int]. *)
Definition str_int (z : Z) : string := NilZero.string_of_int (Z.to_int z).

(** [str(x)] for an optional [int]: [None] prints as its name. *)
Definition str_opt_int (z : option Z) : string :=
  match z with Some n => str_int n | None => "None"%string end.

(** [sep.join(parts)]. *)
Fixpoint join (sep : string) (parts : list string) : string :=
  match parts with
  | [] => EmptyString
  | x :: rest =>
      match rest with
      | [] => x
      | _ :: _ => (x ++ sep ++ join sep rest)%string
      end
  end.

(** Truthiness of a [str] and of an optional [str]. *)
Definition truthy (s : string) : bool :=
  match s with EmptyString => false | String _ _ => true end.

Definition truthy_opt (s : option string) : bool :=
  match s with Some t => truthy t | None => false end.

(** [a or b] on strings. *)
Definition str_or (a : option string) (b : string) : string :=
  match a with
  | Some t => if truthy t then t else b
  | None => b
  end.

(** [s.lstrip(chars)] with the character set given as a predicate. *)
Fixpoint lstrip (p : ascii -> bool) (s : string) : string :=
  match s with
  | EmptyString => EmptyString
  | String c rest => if p c then lstrip p rest else s
  end.

Definition rev_string (s : string) : string :=
  string_of_list_ascii (rev (list_ascii_of_string s)).

Definition rstrip (p : ascii -> bool) (s : string) : string :=
  rev_string (lstrip p (rev_string s)).

Definition is_newline (c : ascii) : bool := Ascii.eqb c "010"%char.

(** The whitespace of [str.strip()] within the ASCII range. *)
Definition is_space (c : ascii) : bool :=
  let n := nat_of_ascii c in
  (Nat.eqb n 32 || (Nat.leb 9 n && Nat.leb n 13) || (Nat.leb 28 n && Nat.leb n 31))%bool.

Definition strip (s : string) : string := rstrip is_space (lstrip is_space s).

(** [s.lower()] on the ASCII letters; every other byte of the UTF-8
    encoding is kept.  The program only compares the result with
    ["todo"], ["to do"] and ["done"], and no character outside ASCII
    lowers to one of their letters, so the comparisons come out as in
    Python. *)
Definition lower_char (c : ascii) : ascii :=
  let n := nat_of_ascii c in
  if (Nat.leb 65 n && Nat.leb n 90)%bool then ascii_of_nat (n + 32) else c.

Fixpoint lower (s : string) : string :=
  match s with
  | EmptyString => EmptyString
  | String c rest => String (lower_char c) (lower rest)
  end.

(** [s.replace(old, new)] where [old] is one character. *)
Fixpoint replace (old : ascii) (new : string) (s : string) : string :=
  match s with
  | EmptyString => EmptyString
  | String c rest =>
      if Ascii.eqb c old then (new ++ replace old new rest)%string
      else String c (replace old new rest)
  end.

(** [s.startswith(p)]. *)
Fixpoint startswith (s p : string) {struct p} : bool :=
  match p with
  | EmptyString => true
  | String a p' =>
      match s with
      | EmptyString => false
      | String b s' => (Ascii.eqb a b && startswith s' p')%bool
      end
  end.

(** [int(x)] on a float: truncation towards zero. *)
Definition int_of_float (x : Q) : Z := Z.quot (Qnum x) (Zpos (Qden x)).

(** [math.ceil] and [math.floor]. *)
Definition ceil (x : Q) : Z := Qceiling x.
Definition floor (x : Q) : Z := Qfloor x.

(** Strict comparison of two floats. *)
Definition ltb (x y : Q) : bool := (Qnum x * QDen y <? Qnum y * QDen x)%Z.

End Py.

Import Py.

Notation "x <~ r ;; k" := (rbind r (fun x => k))
  (at level 61, r at next level, right associativity).

(** ** Doubles *)

(** A finite double is a whole number of units of 2^-1074 with at most 53
    significant bits.  [round] sends a rational to the nearest such
    number, ties to even, as the division of two floats and the true
    division of two integers do with their exact result. *)
Module Float.

Definition unit_exp : Z := 1074.

(** The integer nearest to [n / d], ties to even ([d] positive). *)
Definition rne_div (n d : Z) : Z :=
  let '(q, r) := Z.div_eucl n d in
  match (2 * r ?= d)%Z with
  | Lt => q
  | Gt => (q + 1)%Z
  | Eq => if Z.even q then q else (q + 1)%Z
  end.

(** For a positive [n / d]: the binary exponent, counted in units, of the
    last of the 53 bits kept (0 in the subnormal range). *)
Definition last_place (n d : Z) : Z :=
  Z.max 0 (Z.log2 (Z.shiftl n unit_exp / d) - 52).

(** The bits kept: [n / d] in multiples of 2^[last_place], rounded. *)
Definition significand (n d : Z) : Z :=
  let c := last_place n d in
  rne_div (Z.shiftl n (Z.max 0 (unit_exp - c))) (Z.shiftl d (Z.max 0 (c - unit_exp))).

(** The number [m * 2^(c - 1074)]. *)
Definition dyadic (m c : Z) : Q :=
  Qmake (Z.shiftl m (Z.max 0 (c - unit_exp)))
    (Z.to_pos (Z.shiftl 1 (Z.max 0 (unit_exp - c)))).

Definition round (q : Q) : Q :=
  match Qnum q with
  | Z0 => 0%Q
  | Zpos n =>
      dyadic (significand (Zpos n) (Zpos (Qden q))) (last_place (Zpos n) (Zpos (Qden q)))
  | Zneg n =>
      dyadic (- significand (Zpos n) (Zpos (Qden q))) (last_place (Zpos n) (Zpos (Qden q)))
  end.

(** [x / y] on floats. *)
Definition div (x y : Q) : Q := round (x / y).

End Float.

(** ** Points in time *)

(** A [datetime]: the wall-clock fields as microseconds since the start of
    the calendar, and the offset from UTC (in microseconds) when the value
    is timezone-aware. *)
Record datetime : Type := mk_datetime {
  wall : Z;
  tzinfo : option Z
}.

(** A [timedelta] is an exact count of microseconds. *)
Definition timedelta : Type := Z.

Definition utc : Z := 0%Z.

(** [dt.replace(tzinfo=tz)]. *)
Definition replace_tzinfo (dt : datetime) (tz : Z) : datetime :=
  {| wall := wall dt; tzinfo := Some tz |}.

(** [a - b] on datetimes: both aware or both naive, else [TypeError]. *)
Definition sub_datetime (a b : datetime) : result timedelta :=
  match tzinfo a, tzinfo b with
  | Some oa, Some ob => Ok ((wall a - oa) - (wall b - ob))%Z
  | None, None => Ok (wall a - wall b)%Z
  | _, _ => Raise TypeError
  end.

(** [td.total_seconds()]: the microseconds divided by 10**6, an integer
    true division, correctly rounded. *)
Definition total_seconds (td : timedelta) : Q := Float.round (Qmake td 1000000).

Definition hour_us : Z := 3600000000%Z.
Definition day_us : Z := 86400000000%Z.

(** ** Clock readings and exceptions: the monad of the formatter and renderers *)

Section Effects.

(** Successive readings of [datetime.now(timezone.utc)], in microseconds. *)
Variable clock : nat -> Z.

Definition M (A : Type) : Type := nat -> result (A * nat).

Definition ret {A} (a : A) : M A := fun n => Ok (a, n).

Definition bind {A B} (m : M A) (k : A -> M B) : M B :=
  fun n => match m n with
           | Ok (a, n') => k a n'
           | Raise e => Raise e
           end.

Definition lift {A} (r : result A) : M A :=
  fun n => match r with Ok a => Ok (a, n) | Raise e => Raise e end.

Definition datetime_now_utc : M datetime :=
  fun n => Ok ({| wall := clock n; tzinfo := Some utc |}, S n).

End Effects.

Notation "x <- m ;; k" := (bind m (fun x => k))
  (at level 61, m at next level, right associativity).

(** ** Date Formatter: [format_duedate] *)

Section Formatter.

(** Library methods of [datetime] that the program calls:
    [dt.isoformat()], [dt.astimezone()] (which can raise) and
    [dt.strftime("%Y-%m-%d %H:%M")]. *)
Variable isoformat : datetime -> string.
Variable astimezone : datetime -> result datetime.
Variable strftime : datetime -> string.
Variable clock : nat -> Z.

(** The clock is read as soon as a date is present, whatever the style;
    the [relative] style subtracts the reading from the date, which
    raises [TypeError] on a date without an offset. *)
Definition format_duedate (dt : option datetime) (style : string) : M string :=
  match dt with
  | None => ret ""%string
  | Some dt =>
      now <- datetime_now_utc clock ;;
      if (style =? "iso")%string then ret (isoformat dt)
      else if (style =? "local")%string then
        match astimezone dt with
        | Ok loc => ret (strftime loc)
        | Raise _ => ret (strftime dt)
        end
      else if (style =? "relative")%string then
        td <- lift (sub_datetime dt now) ;;
        let diff := total_seconds td in
        let days := Float.div diff 86400 in
        if ltb (Qabs days) 1%Q then
          let hours := Float.div diff 3600 in
          if ltb 0%Q hours then
            ret ("in " ++ str_int (int_of_float hours) ++ " hour(s)")%string
          else
            ret (str_int (int_of_float (Qabs hours)) ++ "hour(s) ago")%string
        else if ltb 365%Q days then
          ret ("in " ++ str_int (ceil (Float.div days 365)) ++ " year(s)")%string
        else if ltb 30%Q days then
          ret ("in " ++ str_int (ceil (Float.div days 30)) ++ " month(s)")%string
        else if ltb 0%Q days then
          ret ("in " ++ str_int (ceil days) ++ " days")%string
        else if ltb days (-365)%Q then
          ret (str_int (Z.abs (ceil (Float.div days 365))) ++ " year(s) ago")%string
        else if ltb days (-30)%Q then
          ret (str_int (Z.abs (ceil (Float.div days 30))) ++ " month(s) ago")%string
        else
          ret (str_int (Z.abs (floor days)) ++ " days ago")%string
      else ret (isoformat dt)
  end.

End Formatter.

(** ** Raw API data and the Grouped Model *)

Module RawUser.
Record t : Type := mk { displayname : option string; primaryKey : option string }.
End RawUser.

Module RawLabel.
Record t : Type := mk { title : option string }.
End RawLabel.

Module RawCard.
Record t : Type := mk {
  id : option Z;
  title : option string;
  order : option Z;
  archived : option bool;
  duedate : option string;
  owner : option RawUser.t;
  assignedUsers : option (list (option RawUser.t));
  labels : option (list RawLabel.t)
}.
End RawCard.

Module RawStack.
Record t : Type := mk {
  id : option Z;
  title : option string;
  order : option Z;
  cards : option (list RawCard.t)
}.
End RawStack.

Module Card.
Record t : Type := mk {
  id : option Z;
  title : option string;
  order : option Z;
  archived : bool;
  duedate : option datetime;
  owner : option string;
  assignees : list string;
  labels : list string
}.
End Card.

Module Stack.
Record t : Type := mk {
  id : option Z;
  title : option string;
  order : option Z
}.
End Stack.

Module Block.
Record t : Type := mk { stack : Stack.t; cards : list Card.t }.
End Block.

(** ** Normalizer: [fmt_user], [parse_duedate], [build_grouped_model] *)

Definition fmt_user (u : option RawUser.t) : string :=
  match u with
  | None => ""%string
  | Some u =>
      str_or (RawUser.displayname u) (str_or (RawUser.primaryKey u) ""%string)
  end.

Section Normalizer.

(** [dateutil.parser.parse]: a naive or aware [datetime], or an exception. *)
Variable dateparser_parse : string -> result datetime.

Definition parse_duedate (raw : option string) : result (option datetime) :=
  match raw with
  | None => Ok None
  | Some raw =>
      if negb (truthy raw) then Ok None
      else
        try_except
          (dt <~ dateparser_parse raw ;;
           let dt :=
             match tzinfo dt with
             | None => replace_tzinfo dt utc
             | Some _ => dt
             end in
           Ok (Some dt))
          (fun _ => Ok None)
  end.

Definition stack_key (x : RawStack.t) : Z := get_default (RawStack.order x) 0%Z.
Definition card_key (x : RawCard.t) : Z := get_default (RawCard.order x) 0%Z.

(** The dictionary built for one card. *)
Definition card_entry (c : RawCard.t) : result Card.t :=
  due <~ parse_duedate (RawCard.duedate c) ;;
  Ok {| Card.id := RawCard.id c;
        Card.title := RawCard.title c;
        Card.order := RawCard.order c;
        Card.archived := get_default (RawCard.archived c) false;
        Card.duedate := due;
        Card.owner :=
          (let o := fmt_user (RawCard.owner c) in
           if truthy o then Some o else None);
        Card.assignees :=
          map fmt_user
            (filter (fun u => truthy (fmt_user u))
               (get_default (RawCard.assignedUsers c) []));
        Card.labels :=
          map (fun lb => get_default (RawLabel.title lb) ""%string)
            (filter (fun lb => truthy_opt (RawLabel.title lb))
               (get_default (RawCard.labels c) [])) |}.

(** The cards of a stack that survive the archive filter. *)
Definition kept_cards (s : RawStack.t) (include_archived : bool) : list RawCard.t :=
  let cards := get_default (RawStack.cards s) [] in
  if negb include_archived then
    filter (fun c => negb (get_default (RawCard.archived c) false)) cards
  else cards.

(** One iteration of the loop over the sorted stacks. *)
Definition block_entry (include_archived : bool) (s : RawStack.t) : result Block.t :=
  let cards := kept_cards s include_archived in
  cs <~ mapM card_entry (sorted cards card_key) ;;
  Ok {| Block.stack := {| Stack.id := RawStack.id s;
                          Stack.title := RawStack.title s;
                          Stack.order := RawStack.order s |};
        Block.cards := cs |}.

Definition build_grouped_model (stacks : list RawStack.t) (include_archived : bool)
  : result (list Block.t) :=
  mapM (block_entry include_archived) (sorted stacks stack_key).

End Normalizer.

(** The ordering keys as read off the Grouped Model, a missing [order]
    counting as 0. *)
Definition block_order (b : Block.t) : Z := get_default (Stack.order (Block.stack b)) 0%Z.
Definition card_order (c : Card.t) : Z := get_default (Card.order c) 0%Z.

(** ** Output formatters *)

Definition NL : string := String "010"%char EmptyString.

Module Ansi.
Definition ESC : string := String (ascii_of_nat 27) EmptyString.
Definition RESET : string := (ESC ++ "[0m")%string.
Definition BOLD : string := (ESC ++ "[1m")%string.
Definition DIM : string := (ESC ++ "[2m")%string.
Definition BLUE : string := (ESC ++ "[34m")%string.
Definition MAGENTA : string := (ESC ++ "[35m")%string.
Definition YELLOW : string := (ESC ++ "[33m")%string.
Definition CYAN : string := (ESC ++ "[36m")%string.
Definition GRAY : string := (ESC ++ "[90m")%string.
End Ansi.

(** [html.escape(text, quote)]: five replacements in sequence, the
    ampersand first. *)
Definition html_escape (text : string) (quote : bool) : string :=
  let s := replace "&"%char "&amp;" text in
  let s := replace "<"%char "&lt;" s in
  let s := replace ">"%char "&gt;" s in
  if quote then
    let s := replace (ascii_of_nat 34) "&quot;" s in
    replace "'"%char "&#x27;" s
  else s.

Definition pango_escape (text : string) : string := html_escape text true.

(** Modelled from the spec: re-parsing the markup.  The reader of the
    markup is not part of the repository; it is taken to read character
    data as a markup parser does: a character reference stands for its
    character, ["<"] opens a tag and an ["&"] that opens none of the five
    references [html.escape] writes is an error, so neither is
    character data, and every other character stands for itself.
    [skip] counts the characters of a reference still to be passed
    over. *)
Fixpoint text_from (skip : nat) (s : string) : option string :=
  match s with
  | EmptyString => Some EmptyString
  | String c rest =>
      match skip with
      | S k => text_from k rest
      | O =>
          if Ascii.eqb c "&"%char then
            if startswith rest "amp;" then
              option_map (String "&"%char) (text_from 4 rest)
            else if startswith rest "lt;" then
              option_map (String "<"%char) (text_from 3 rest)
            else if startswith rest "gt;" then
              option_map (String ">"%char) (text_from 3 rest)
            else if startswith rest "quot;" then
              option_map (String (ascii_of_nat 34)) (text_from 5 rest)
            else if startswith rest "#x27;" then
              option_map (String "'"%char) (text_from 5 rest)
            else None
          else if Ascii.eqb c "<"%char then None
          else option_map (String c) (text_from 0 rest)
      end
  end.

(** The text a piece of markup stands for, when it is character data. *)
Definition markup_text (s : string) : option string := text_from 0 s.

(** [x.lower()] on an optional string: [None] has no such method. *)
Definition lower_method (x : option string) : result string :=
  match x with
  | Some s => Ok (lower s)
  | None => Raise AttributeError
  end.

Definition nonempty {A} (l : list A) : bool :=
  match l with [] => false | _ :: _ => true end.

(** [st.get('title') or f'List {st.get('id')}']. *)
Definition stack_heading (st : Stack.t) : string :=
  str_or (Stack.title st) ("List " ++ str_opt_int (Stack.id st))%string.

Section Renderers.

Variable isoformat : datetime -> string.
Variable astimezone : datetime -> result datetime.
Variable strftime : datetime -> string.
Variable clock : nat -> Z.

(** A [for] loop whose body reads the clock or raises. *)
Fixpoint forM {A B} (l : list A) (f : A -> M B) : M (list B) :=
  match l with
  | [] => ret []
  | x :: rest => y <- f x ;; ys <- forM rest f ;; ret (y :: ys)
  end.

(** [format_duedate(c['duedate'], datefmt)] under [if c.get("duedate")]. *)
Definition due_text (c : Card.t) (datefmt : string) : M (option string) :=
  match Card.duedate c with
  | Some dt =>
      s <- format_duedate isoformat astimezone strftime clock (Some dt) datefmt ;;
      ret (Some s)
  | None => ret None
  end.

Definition colorize_card (show_owner : bool) (datefmt : string) (c : Card.t) : M string :=
  let E_CARD := "📝"%string in
  let E_LABEL := "🏷️"%string in
  let E_OWNER := "👤"%string in
  let E_ASSIGNEES := "👥"%string in
  let E_DUE := "📅"%string in
  let E_ARCH := "📦"%string in
  let line :=
    ("- " ++ Ansi.BOLD ++ E_CARD ++ " " ++ str_or (Card.title c) "(untitled)"
     ++ Ansi.RESET)%string in
  let line :=
    if nonempty (Card.labels c) then
      (line ++ "  " ++ Ansi.MAGENTA ++ E_LABEL ++ " " ++ join ", " (Card.labels c)
       ++ Ansi.RESET)%string
    else line in
  let line :=
    if (show_owner && truthy_opt (Card.owner c))%bool then
      (line ++ "  " ++ Ansi.CYAN ++ E_OWNER ++ " " ++ get_default (Card.owner c) ""
       ++ Ansi.RESET)%string
    else line in
  let line :=
    if nonempty (Card.assignees c) then
      (line ++ "  " ++ Ansi.CYAN ++ E_ASSIGNEES ++ " " ++ join ", " (Card.assignees c)
       ++ Ansi.RESET)%string
    else line in
  due <- due_text c datefmt ;;
  let line :=
    match due with
    | Some d => (line ++ "  " ++ Ansi.YELLOW ++ E_DUE ++ " " ++ d ++ Ansi.RESET)%string
    | None => line
    end in
  let line :=
    if Card.archived c then
      (line ++ "  " ++ Ansi.DIM ++ E_ARCH ++ " archived" ++ Ansi.RESET)%string
    else line in
  ret line.

Definition colorize_block (show_owner : bool) (datefmt : string) (block : Block.t)
  : M (list string) :=
  let E_STACK := "🗂️"%string in
  let st := Block.stack block in
  let header :=
    (NL ++ Ansi.BOLD ++ Ansi.BLUE ++ E_STACK ++ " " ++ stack_heading st
     ++ Ansi.RESET)%string in
  let cards := Block.cards block in
  if negb (nonempty cards) then
    ret [header; (Ansi.DIM ++ "(no cards)" ++ Ansi.RESET)%string]
  else
    ls <- forM cards (colorize_card show_owner datefmt) ;;
    ret (header :: ls).

Definition colorize_output (grouped : list Block.t) (show_owner : bool) (datefmt : string)
  : M string :=
  lines <- forM grouped (colorize_block show_owner datefmt) ;;
  ret (lstrip is_newline (join NL (List.concat lines))).

(** The metadata fragments shared in shape by the markdown and plain
    formatters: labels, owner, assignees, due, archived. *)
Definition text_meta (show_owner : bool) (datefmt : string) (c : Card.t)
  : M (list string) :=
  let meta := [] in
  let meta :=
    if nonempty (Card.labels c) then
      meta ++ [("labels: " ++ join ", " (Card.labels c))%string]
    else meta in
  let meta :=
    if (show_owner && truthy_opt (Card.owner c))%bool then
      meta ++ [("owner: " ++ get_default (Card.owner c) "")%string]
    else meta in
  let meta :=
    if nonempty (Card.assignees c) then
      meta ++ [("assignees: " ++ join ", " (Card.assignees c))%string]
    else meta in
  due <- due_text c datefmt ;;
  let meta :=
    match due with
    | Some d => meta ++ [("due: " ++ d)%string]
    | None => meta
    end in
  let meta := if Card.archived c then meta ++ ["archived"%string] else meta in
  ret meta.

Definition markdown_card (show_owner : bool) (datefmt : string) (c : Card.t) : M string :=
  let line := ("- **" ++ str_or (Card.title c) "(untitled)" ++ "**")%string in
  meta <- text_meta show_owner datefmt c ;;
  let line :=
    if nonempty meta then (line ++ " — _" ++ join "; " meta ++ "_")%string
    else line in
  ret line.

Definition markdown_block (show_owner : bool) (datefmt : string) (block : Block.t)
  : M (list string) :=
  let st := Block.stack block in
  let header := ("## " ++ stack_heading st)%string in
  let cards := Block.cards block in
  if negb (nonempty cards) then ret [header; "_(no cards)_"%string]
  else
    ls <- forM cards (markdown_card show_owner datefmt) ;;
    ret (header :: ls ++ [""%string]).

Definition markdown_output (grouped : list Block.t) (show_owner : bool) (datefmt : string)
  : M string :=
  lines <- forM grouped (markdown_block show_owner datefmt) ;;
  ret (strip (join NL (List.concat lines))).

Definition pango_card (st : Stack.t) (show_owner : bool) (datefmt : string) (c : Card.t)
  : M string :=
  let t := pango_escape (str_or (Card.title c) "(untitled)") in
  low <- lift (lower_method (Stack.title st)) ;;
  let line :=
    if ((low =? "todo") || (low =? "to do"))%string then ("✔️  " ++ t)%string
    else if (low =? "done")%string then
      ("✅ <span foreground='#888888'>" ++ t ++ "</span>")%string
    else ("📝 " ++ t)%string in
  let meta := [] in
  let meta :=
    if nonempty (Card.labels c) then
      meta ++ [("<span foreground='#a371f7'>🏷️ "
                ++ pango_escape (join ", " (Card.labels c)) ++ "</span>")%string]
    else meta in
  let meta :=
    if (show_owner && truthy_opt (Card.owner c))%bool then
      meta ++ [("<span foreground='#58a6ff'>👤 "
                ++ pango_escape (get_default (Card.owner c) "") ++ "</span>")%string]
    else meta in
  let meta :=
    if nonempty (Card.assignees c) then
      meta ++ [("<span foreground='#58a6ff'>👥 "
                ++ pango_escape (join ", " (Card.assignees c)) ++ "</span>")%string]
    else meta in
  due <- due_text c datefmt ;;
  let meta :=
    match due with
    | Some d =>
        meta ++ [("<span foreground='#d29922'>📅 " ++ pango_escape d
                  ++ "</span>")%string]
    | None => meta
    end in
  let meta :=
    if Card.archived c then
      meta ++ ["<span foreground='#6e7781'>📦 archived</span>"%string]
    else meta in
  let line :=
    if nonempty meta then (line ++ "  " ++ join "  " meta)%string else line in
  ret line.

Definition pango_block (show_owner : bool) (datefmt : string) (block : Block.t)
  : M (list string) :=
  let st := Block.stack block in
  let title := pango_escape (stack_heading st) in
  let header := ("<b><u>" ++ title ++ "</u></b>")%string in
  let cards := Block.cards block in
  if negb (nonempty cards) then
    ret [header; "<span foreground='#6e7781'>(no cards)</span>"%string]
  else
    ls <- forM cards (pango_card st show_owner datefmt) ;;
    ret (header :: ls ++ [" "%string]).

Definition pango_output (grouped : list Block.t) (show_owner : bool) (datefmt : string)
  : M string :=
  lines <- forM grouped (pango_block show_owner datefmt) ;;
  ret (join NL (List.concat lines)).

Definition plain_card (show_owner : bool) (datefmt : string) (c : Card.t) : M string :=
  let line := ("- " ++ str_or (Card.title c) "(untitled)")%string in
  bits <- text_meta show_owner datefmt c ;;
  let line :=
    if nonempty bits then (line ++ "  [" ++ join "; " bits ++ "]")%string
    else line in
  ret line.

Definition plain_block (show_owner : bool) (datefmt : string) (block : Block.t)
  : M (list string) :=
  let st := Block.stack block in
  let header := (NL ++ "=== " ++ stack_heading st ++ " ===")%string in
  let cards := Block.cards block in
  if negb (nonempty cards) then ret [header; "(no cards)"%string]
  else
    ls <- forM cards (plain_card show_owner datefmt) ;;
    ret (header :: ls).

Definition plain_output (grouped : list Block.t) (show_owner : bool) (datefmt : string)
  : M string :=
  lines <- forM grouped (plain_block show_owner datefmt) ;;
  ret (lstrip is_newline (join NL (List.concat lines))).

End Renderers.

(** ** Fetcher *)

Definition API_BASE_SUFFIX : string := "/index.php/apps/deck/api/v1.1"%string.

(** [os.environ]. *)
Definition environment : Type := string -> option string.

Definition env (environ : environment) (name : string) (default : string) : string :=
  match environ name with
  | Some v => if truthy v then v else default
  | None => default
  end.

Definition is_slash (c : ascii) : bool := Ascii.eqb c "/"%char.

Definition stacks_url (base : string) (board_id : Z) : string :=
  (rstrip is_slash base ++ API_BASE_SUFFIX ++ "/boards/" ++ str_int board_id
   ++ "/stacks")%string.

(** A decoded response body: the list of stacks, bare or inside the
    [ocs.data] envelope. *)
Inductive payload : Type :=
| Enveloped (data : list RawStack.t)
| Listing (data : list RawStack.t).

Module Response.
Record t : Type := mk {
  status_code : Z;
  reason : string;
  url : string;
  json : result payload
}.
End Response.

(** The text of the [HTTPError] that [r.raise_for_status()] raises for a
    status from 400 to 599 (the library's wording). *)
Definition http_error_text (r : Response.t) : string :=
  (str_int (Response.status_code r)
   ++ (if (Response.status_code r <? 500)%Z then " Client Error: " else " Server Error: ")
   ++ Response.reason r ++ " for url: " ++ Response.url r)%string.

(** [r.raise_for_status(); return r.json()]. *)
Definition get_json (r : Response.t) : result payload :=
  if ((400 <=? Response.status_code r) && (Response.status_code r <? 600))%Z then
    Raise (RequestException (http_error_text r))
  else Response.json r.

Section Fetcher.

(** [session.get(url, timeout=30)]: a response, or a transport error. *)
Variable session_get : string -> result Response.t.

Definition fetch_stacks (base_url : string) (board_id : Z) : result (list RawStack.t) :=
  r <~ session_get (stacks_url base_url board_id) ;;
  data <~ get_json r ;;
  match data with
  | Enveloped d => Ok d
  | Listing d => Ok d
  end.

End Fetcher.

(** ** Entry point *)

(** The options given on the command line, before defaults are applied.
    [help] is argparse's own [-h]/[--help], met before any option that
    argparse rejects. *)
Module Cli.
Record t : Type := mk {
  url : option string;
  username : option string;
  password : option string;
  board_id : option string;
  include_archived : bool;
  json : bool;
  color : bool;
  pango : bool;
  markdown : bool;
  show_owner : bool;
  date_format : option string;
  help : bool
}.
End Cli.

(** The namespace [parser.parse_args()] returns. *)
Module Args.
Record t : Type := mk {
  url : string;
  username : string;
  password : string;
  board_id : Z;
  include_archived : bool;
  json : bool;
  color : bool;
  pango : bool;
  markdown : bool;
  show_owner : bool;
  date_format : string
}.
End Args.

(** What a run does to the outside world, in order. *)
Inductive event : Type :=
| Stderr (text : string)
| PrintHelp
| HelpOnStdout
| UsageError (option_name : string)
| HttpGet (url : string)
| Stdout (text : string).

(** How [parser.parse_args()] ends a run by itself: the help asked for,
    or an option it rejects. *)
Inductive stop : Type :=
| Help
| Usage (option_name : string).

Inductive status : Type :=
| Exit (code : Z)
| Uncaught (e : exn).

(** The list comprehension that names the unset required values. *)
Definition missing_fields (args : Args.t) : list string :=
  map fst
    (filter (fun p => negb (snd p))
       [("base URL"%string, truthy (Args.url args));
        ("username"%string, truthy (Args.username args));
        ("app password"%string, truthy (Args.password args));
        ("board id"%string, negb (Args.board_id args =? 0)%Z)]).

Section Main.

(** [int(s)] on a string. *)
Variable py_int : string -> result Z.
Variable session_get : string -> result Response.t.
Variable dateparser_parse : string -> result datetime.
Variable isoformat : datetime -> string.
Variable astimezone : datetime -> result datetime.
Variable strftime : datetime -> string.
Variable clock : nat -> Z.
(** [json.dumps] of the board id, the API base and the grouped model. *)
Variable json_dumps : Z -> string -> list Block.t -> string.

(** [parser.parse_args()] with the defaults already computed: the
    namespace, or the reason argparse ends the run. *)
Definition parse_args (environ : environment) (default_board : Z) (cli : Cli.t)
  : Args.t + stop :=
  if Cli.help cli then inr Help else
  let board :=
    match Cli.board_id cli with
    | Some s => py_int s
    | None => Ok default_board
    end in
  let datefmt := get_default (Cli.date_format cli) "relative"%string in
  match board with
  | Raise _ => inr (Usage "--board-id"%string)
  | Ok b =>
      if negb (existsb (String.eqb datefmt) ["iso"; "local"; "relative"]%string) then
        inr (Usage "--date-format"%string)
      else
        inl {| Args.url := get_default (Cli.url cli) (env environ "NEXTCLOUD_BASE_URL" "");
               Args.username :=
                 get_default (Cli.username cli) (env environ "NEXTCLOUD_USERNAME" "");
               Args.password :=
                 get_default (Cli.password cli) (env environ "NEXTCLOUD_PASSWORD" "");
               Args.board_id := b;
               Args.include_archived :=
                 (Cli.include_archived cli
                  || (env environ "NEXTCLOUD_INCLUDE_ARCHIVED" "" =? "1")%string)%bool;
               Args.json := Cli.json cli;
               Args.color := Cli.color cli;
               Args.pango := Cli.pango cli;
               Args.markdown := Cli.markdown cli;
               Args.show_owner := Cli.show_owner cli;
               Args.date_format := datefmt |}
  end.

(** Printing what a formatter returns, or dying on what it raises. *)
Definition print_rendered (before : list event) (r : M string) : list event * status :=
  match r 0%nat with
  | Ok (text, _) => (before ++ [Stdout text], Exit 0)
  | Raise e => (before, Uncaught e)
  end.

(** The body of [main] after [args = parser.parse_args()]. *)
Definition run (args : Args.t) : list event * status :=
  let missing := missing_fields args in
  if nonempty missing then
    ([Stderr ("Missing: " ++ join ", " missing)%string; PrintHelp], Exit 2)
  else
    let request := HttpGet (stacks_url (Args.url args) (Args.board_id args)) in
    match fetch_stacks session_get (Args.url args) (Args.board_id args) with
    | Raise (RequestException e) =>
        ([request;
          Stderr ("Error fetching stacks for board " ++ str_int (Args.board_id args)
                  ++ ": " ++ e)%string],
         Exit 1)
    | Raise e => ([request], Uncaught e)
    | Ok stacks =>
        match build_grouped_model dateparser_parse stacks (Args.include_archived args) with
        | Raise e => ([request], Uncaught e)
        | Ok grouped =>
            let show := Args.show_owner args in
            let datefmt := Args.date_format args in
            if Args.json args then
              ([request;
                Stdout (json_dumps (Args.board_id args)
                          (rstrip is_slash (Args.url args) ++ API_BASE_SUFFIX)%string
                          grouped)],
               Exit 0)
            else if Args.markdown args then
              print_rendered [request]
                (markdown_output isoformat astimezone strftime clock grouped show datefmt)
            else if Args.pango args then
              print_rendered [request]
                (pango_output isoformat astimezone strftime clock grouped show datefmt)
            else if Args.color args then
              print_rendered [request]
                (colorize_output isoformat astimezone strftime clock grouped show datefmt)
            else
              print_rendered [request]
                (plain_output isoformat astimezone strftime clock grouped show datefmt)
        end
    end.

Definition main (environ : environment) (cli : Cli.t) : list event * status :=
  match py_int (env environ "NEXTCLOUD_BOARD_ID" "0") with
  | Raise e => ([], Uncaught e)
  | Ok default_board =>
      match parse_args environ default_board cli with
      | inr Help => ([HelpOnStdout], Exit 0)
      | inr (Usage option_name) => ([UsageError option_name], Exit 2)
      | inl args => run args
      end
  end.

End Main.

(** ** Stand-ins for the libraries, to run the functions on concrete inputs *)

Module Sample.
Definition isoformat (dt : datetime) : string := "<iso>"%string.
Definition astimezone (dt : datetime) : result datetime := Ok dt.
Definition strftime (dt : datetime) : string := "<local>"%string.
Definition clock (n : nat) : Z := 0%Z.
Definition dateparser_parse (s : string) : result datetime := Raise ParserError.
Definition py_int (s : string) : result Z :=
  match NilEmpty.int_of_string s with
  | Some d => Ok (Z.of_int d)
  | None => Raise ValueError
  end.
Definition session_get (url : string) : result Response.t :=
  Raise (RequestException "unreachable").
Definition json_dumps (board_id : Z) (api_base : string) (grouped : list Block.t) : string :=
  "{}"%string.
Definition environ : environment := fun _ => None.
Definition no_options : Cli.t :=
  Cli.mk None None None None false false false false false false None false.
(** The instant [us] microseconds after the sample clock's reading. *)
Definition at_offset (us : Z) : datetime := {| wall := us; tzinfo := Some utc |}.
Definition relative (dt : datetime) : result (string * nat) :=
  format_duedate isoformat astimezone strftime clock (Some dt) "relative" 0.
Definition main (environ : environment) (cli : Cli.t) : list event * status :=
  main py_int session_get dateparser_parse isoformat astimezone strftime clock
    json_dumps environ cli.
End Sample.

(** ** Notions used to state the properties *)

(** Ascending order of keys. *)
Definition key_le {A} (key : A -> Z) (a b : A) : Prop := (key a <= key b)%Z.

Section Values.

Variable parse : string -> result datetime.

(** What [parse_duedate], [card_entry] and [block_entry] hand back, as
    functions of their input. *)
Definition duedate_value (raw : option string) : option datetime :=
  match parse_duedate parse raw with Ok r => r | Raise _ => None end.

Definition card_value (c : RawCard.t) : Card.t :=
  match card_entry parse c with
  | Ok v => v
  | Raise _ => Card.mk None None None false None None [] []
  end.

Definition block_value (include_archived : bool) (s : RawStack.t) : Block.t :=
  {| Block.stack := {| Stack.id := RawStack.id s;
                       Stack.title := RawStack.title s;
                       Stack.order := RawStack.order s |};
     Block.cards := map card_value (sorted (kept_cards s include_archived) card_key) |}.

End Values.

(** A computation that, from every clock position, returns a value. *)
Definition returns {A} (m : M A) : Prop :=
  forall n : nat, exists (a : A) (n' : nat), m n = Ok (a, n').

(** Due dates as the Normalizer leaves them: aware whenever present. *)
Definition aware_dates (grouped : list Block.t) : Prop :=
  Forall (fun b =>
            Forall (fun c => forall dt, Card.duedate c = Some dt ->
                                        exists off, tzinfo dt = Some off)
              (Block.cards b))
    grouped.

(** ** Sample inputs *)

(** A parser that reads one fixed text as a naive instant and one as an
    aware instant, and fails on everything else. *)
Definition sample_parse (s : string) : result datetime :=
  if (s =? "2025-01-01 00:00")%string then Ok {| wall := 5; tzinfo := None |}
  else if (s =? "2025-01-01T00:00+01:00")%string then
    Ok {| wall := 5; tzinfo := Some 3600000000%Z |}
  else Raise ParserError.

(** A board with equal keys, a missing key and an archived card. *)
Definition sample_card (id : Z) (order : option Z) (archived : option bool) : RawCard.t :=
  RawCard.mk (Some id) None order archived None None None None.

Definition sample_board : list RawStack.t :=
  [ RawStack.mk (Some 1%Z) (Some "Done"%string) (Some 2%Z)
      (Some [sample_card 10 (Some 1%Z) None; sample_card 11 None (Some true);
             sample_card 12 (Some 1%Z) (Some false); sample_card 13 (Some 0%Z) None]);
    RawStack.mk (Some 2%Z) None None None;
    RawStack.mk (Some 3%Z) (Some "Todo"%string) (Some 0%Z) (Some []);
    RawStack.mk (Some 4%Z) (Some "Doing"%string) (Some 2%Z) None ].

Definition ids_of (r : result (list Block.t)) : list (option Z * list (option Z)) :=
  match r with
  | Ok g => map (fun b => (Stack.id (Block.stack b), map Card.id (Block.cards b))) g
  | Raise _ => []
  end.

Definition untitled_raw : list RawStack.t :=
  [ RawStack.mk (Some 7%Z) None None
      (Some [RawCard.mk (Some 1%Z) (Some "task"%string) None None None None None None]) ].

Definition untitled_model : list Block.t :=
  [ {| Block.stack := {| Stack.id := Some 7%Z; Stack.title := None; Stack.order := None |};
       Block.cards := [Card.mk (Some 1%Z) (Some "task"%string) None false None None [] []] |} ].

Definition render (f : (datetime -> string) -> (datetime -> result datetime) ->
                       (datetime -> string) -> (nat -> Z) ->
                       list Block.t -> bool -> string -> M string)
           (grouped : list Block.t) : result (string * nat) :=
  f Sample.isoformat Sample.astimezone Sample.strftime Sample.clock grouped false
    "relative"%string 0%nat.

(** Everything else configured, board 0 asked for on the command line... *)
Definition board_zero_options : Cli.t :=
  Cli.mk (Some "https://cloud.example.com"%string) (Some "alice"%string)
    (Some "secret"%string) (Some "0"%string) false false false false false false None
    false.

(** ... or left to the environment, which does not set it. *)
Definition board_unset_options : Cli.t :=
  Cli.mk (Some "https://cloud.example.com"%string) (Some "alice"%string)
    (Some "secret"%string) None false false false false false false None false.

(** ** Further notions and sample inputs *)

(** Division rounded up, for a positive divisor. *)
Definition ceil_div (a b : Z) : Z := ((a + b - 1) / b)%Z.

(** The archive filter as a test on a raw card. *)
Definition keeps (include_archived : bool) (rc : RawCard.t) : bool :=
  (include_archived || negb (get_default (RawCard.archived rc) false))%bool.

(** A block of the model without its archived cards. *)
Definition drop_archived (b : Block.t) : Block.t :=
  {| Block.stack := Block.stack b;
     Block.cards := filter (fun c => negb (Card.archived c)) (Block.cards b) |}.

(** A board whose stacks are already in ascending order. *)
Definition ordered_board : list RawStack.t :=
  [ RawStack.mk (Some 3%Z) (Some "Todo"%string) None None;
    RawStack.mk (Some 4%Z) (Some "Doing"%string) (Some 0%Z) None;
    RawStack.mk (Some 1%Z) (Some "Done"%string) (Some 2%Z) None ].

(** A card, and a block, with the owner taken away. *)
Definition without_owner (c : Card.t) : Card.t :=
  {| Card.id := Card.id c;
     Card.title := Card.title c;
     Card.order := Card.order c;
     Card.archived := Card.archived c;
     Card.duedate := Card.duedate c;
     Card.owner := None;
     Card.assignees := Card.assignees c;
     Card.labels := Card.labels c |}.

Definition without_owners (b : Block.t) : Block.t :=
  {| Block.stack := Block.stack b; Block.cards := map without_owner (Block.cards b) |}.

(** The characters that open or close markup, or delimit an attribute. *)
Definition is_markup_char (c : ascii) : bool :=
  (Ascii.eqb c "<"%char || Ascii.eqb c ">"%char || Ascii.eqb c (ascii_of_nat 34)
   || Ascii.eqb c "'"%char)%bool.

(** The environment with the variables that are set to the empty text
    taken out. *)
Definition unset_empty (environ : environment) : environment :=
  fun name =>
    match environ name with
    | Some v => if truthy v then Some v else None
    | None => None
    end.

(** The namespace with every output flag cleared that an earlier one in
    the order json, markdown, pango, color overrides. *)
Definition effective_mode (args : Args.t) : Args.t :=
  {| Args.url := Args.url args;
     Args.username := Args.username args;
     Args.password := Args.password args;
     Args.board_id := Args.board_id args;
     Args.include_archived := Args.include_archived args;
     Args.json := Args.json args;
     Args.color :=
       (Args.color args && negb (Args.json args) && negb (Args.markdown args)
        && negb (Args.pango args))%bool;
     Args.pango :=
       (Args.pango args && negb (Args.json args) && negb (Args.markdown args))%bool;
     Args.markdown := (Args.markdown args && negb (Args.json args))%bool;
     Args.show_owner := Args.show_owner args;
     Args.date_format := Args.date_format args |}.

(** Everything configured and board 5 asked for. *)
Definition board_five_options : Cli.t :=
  Cli.mk (Some "https://cloud.example.com/"%string) (Some "alice"%string)
    (Some "secret"%string) (Some "5"%string) false false false false false false None
    false.

(** A server that answers every request with the sample board. *)
Definition sample_server (url : string) : result Response.t :=
  Ok {| Response.status_code := 200; Response.reason := "OK"; Response.url := url;
        Response.json := Ok (Listing sample_board) |}.

Definition is_request (e : event) : bool :=
  match e with HttpGet _ => true | _ => false end.

Definition is_stdout (e : event) : bool :=
  match e with Stdout _ | HelpOnStdout => true | _ => false end.

(** An environment whose board id is not a number, with board 5 asked
    for on the command line all the same. *)
Definition bad_board_environ : environment :=
  fun name => if (name =? "NEXTCLOUD_BOARD_ID")%string then Some "abc"%string else None.

(** The first and the last character of a text, when it has one. *)
Definition first_char (s : string) : option ascii :=
  match s with EmptyString => None | String c _ => Some c end.

Definition last_char (s : string) : option ascii := first_char (rev_string s).

(** No character at that end, or one that the test rejects. *)
Definition clear_of (p : ascii -> bool) (c : option ascii) : Prop :=
  match c with Some x => p x = false | None => True end.

(** ** Notions used to reason about doubles *)

(** The rounded value of a positive [n / d], in units of 2^-1074. *)
Definition units (n d : Z) : Z := (Float.significand n d * 2 ^ Float.last_place n d)%Z.

(** The floats [format_duedate] computes from the signed distance. *)
Definition days_of (td : Z) : Q := Float.div (total_seconds td) 86400.
Definition hours_of (td : Z) : Q := Float.div (total_seconds td) 3600.
Definition months_of (td : Z) : Q := Float.div (days_of td) 30.
Definition years_of (td : Z) : Q := Float.div (days_of td) 365.

(** A float of the distance, rounded down, and the same rounded up and
    read from the far side of zero. *)
Definition floor_of (p : Z -> Q) (x : Z) : Z := Qfloor (p x).
Definition neg_ceil_of (p : Z -> Q) (x : Z) : Z := (- Qceiling (p (- x)))%Z.

(** [f] takes the value [k] at both ends of the [k]-th stretch of
    length [s]. *)
Definition step_ok (f : Z -> Z) (s k : Z) : bool :=
  ((f (k * s) =? k) && (f (k * s + s - 1) =? k))%Z.

Definition steps_ok (f : Z -> Z) (s first : Z) (count : nat) : bool :=
  forallb (step_ok f s) (map (fun i => (first + Z.of_nat i)%Z) (seq 0 count)).

(** A server that knows no board. *)
Definition not_found_server (url : string) : result Response.t :=
  Ok {| Response.status_code := 404; Response.reason := "Not Found"; Response.url := url;
        Response.json := Raise ValueError |}.

(** * Properties *)

(** ** Rounding to the nearest double keeps the order *)

Module FloatFacts.
Import Float.

Lemma rne_div_spec (n d : Z) :
  (0 < d)%Z ->
  let m := rne_div n d in
  (- d <= 2 * (n - m * d) <= d)%Z /\
  (Z.abs (2 * (n - m * d)) = d -> Z.even m = true).
Proof.
  intros Hd. unfold rne_div.
  pose proof (Z.div_mod n d ltac:(lia)) as Hn.
  pose proof (Z.mod_pos_bound n d Hd) as Hr.
  unfold Z.div, Z.modulo in Hn, Hr.
  destruct (Z.div_eucl n d) as [q r].
  destruct (Z.compare_spec (2 * r) d) as [He|Hl|Hg].
  - destruct (Z.even q) eqn:Hq.
    + split; [nia | auto].
    + split; [nia|]. intros _.
      rewrite Z.add_1_r, Z.even_succ, <- Z.negb_even, Hq. reflexivity.
  - split; [nia|]. intros H. exfalso. nia.
  - split; [nia|]. intros H. exfalso. nia.
Qed.

Lemma rne_div_mono (n1 d1 n2 d2 : Z) :
  (0 < d1)%Z -> (0 < d2)%Z -> (n1 * d2 <= n2 * d1)%Z ->
  (rne_div n1 d1 <= rne_div n2 d2)%Z.
Proof.
  intros H1 H2 Hle.
  destruct (rne_div_spec n1 H1) as [B1 E1].
  destruct (rne_div_spec n2 H2) as [B2 E2].
  cbv zeta in *.
  set (m1 := rne_div n1 d1) in *. set (m2 := rne_div n2 d2) in *.
  destruct (Z.le_gt_cases m1 m2) as [|Hgt]; [assumption|exfalso].
  assert (Hm : m1 = (m2 + 1)%Z).
  { assert ((2 * m1 - 1) * (d1 * d2) <= (2 * m2 + 1) * (d1 * d2))%Z by nia.
    assert (0 < d1 * d2)%Z by nia. nia. }
  assert (A1 : (2 * (n1 - m1 * d1) = - d1)%Z) by nia.
  assert (A2 : (2 * (n2 - m2 * d2) = d2)%Z) by nia.
  assert (Ev1 : Z.even m1 = true) by (apply E1; lia).
  assert (Ev2 : Z.even m2 = true) by (apply E2; lia).
  rewrite Hm, Z.add_1_r, Z.even_succ, <- Z.negb_even, Ev2 in Ev1. discriminate.
Qed.

Lemma rne_div_exact (m d : Z) : (0 < d)%Z -> rne_div (m * d) d = m.
Proof.
  intros Hd. destruct (rne_div_spec (m * d) Hd) as [B _]. cbv zeta in B. nia.
Qed.

Lemma rne_div_ratio (n1 d1 n2 d2 : Z) :
  (0 < d1)%Z -> (0 < d2)%Z -> (n1 * d2 = n2 * d1)%Z ->
  rne_div n1 d1 = rne_div n2 d2.
Proof.
  intros H1 H2 He. apply Z.le_antisymm; apply rne_div_mono; lia.
Qed.


Lemma div_cross_mono (n1 d1 n2 d2 : Z) :
  (0 < d1)%Z -> (0 < d2)%Z -> (n1 * d2 <= n2 * d1)%Z -> (n1 / d1 <= n2 / d2)%Z.
Proof.
  intros H1 H2 Hle. apply Z.div_le_lower_bound; [assumption|].
  pose proof (Z.mul_div_le n1 d1 H1). nia.
Qed.

Lemma last_place_nonneg (n d : Z) : (0 <= last_place n d)%Z.
Proof. unfold last_place. lia. Qed.

Lemma significand_eq (n d : Z) :
  (0 < d)%Z ->
  significand n d = rne_div (n * 2 ^ unit_exp) (d * 2 ^ last_place n d).
Proof.
  intros Hd. unfold significand.
  pose proof (last_place_nonneg n d) as Hc.
  set (c := last_place n d) in *.
  assert (Hu : (0 <= unit_exp)%Z) by (unfold unit_exp; lia).
  rewrite !Z.shiftl_mul_pow2 by lia.
  assert (P1 : (0 < 2 ^ Z.max 0 (c - unit_exp))%Z) by (apply Z.pow_pos_nonneg; lia).
  assert (P2 : (0 < 2 ^ c)%Z) by (apply Z.pow_pos_nonneg; lia).
  apply rne_div_ratio; [nia | nia |].
  assert (E : (2 ^ Z.max 0 (unit_exp - c) * 2 ^ c
               = 2 ^ unit_exp * 2 ^ Z.max 0 (c - unit_exp))%Z).
  { rewrite <- !Z.pow_add_r by lia. f_equal. lia. }
  transitivity (n * d * (2 ^ Z.max 0 (unit_exp - c) * 2 ^ c))%Z; [ring|].
  rewrite E. ring.
Qed.

Lemma significand_upper (n d : Z) :
  (0 < n)%Z -> (0 < d)%Z -> (significand n d <= 2 ^ 53)%Z.
Proof.
  intros Hn Hd. rewrite significand_eq by assumption.
  pose proof (last_place_nonneg n d) as Hc.
  assert (Hu : (0 <= unit_exp)%Z) by (unfold unit_exp; lia).
  assert (PS : (0 < 2 ^ unit_exp)%Z) by (apply Z.pow_pos_nonneg; lia).
  set (N := (n * 2 ^ unit_exp)%Z).
  assert (HF : (0 <= N / d)%Z) by (apply Z.div_pos; nia).
  assert (Hlog : (N / d < 2 ^ (Z.log2 (N / d) + 1))%Z).
  { destruct (Z.eq_dec (N / d) 0) as [E|E].
    - rewrite E. cbn. lia.
    - pose proof (Z.log2_spec (N / d) ltac:(lia)) as [_ H].
      now rewrite <- Z.add_1_r in H. }
  assert (Hc' : (Z.log2 (N / d) + 1 <= last_place n d + 53)%Z).
  { unfold last_place. rewrite Z.shiftl_mul_pow2 by lia. fold N. lia. }
  assert (Hpow : (2 ^ (Z.log2 (N / d) + 1) <= 2 ^ 53 * 2 ^ last_place n d)%Z).
  { rewrite <- Z.pow_add_r by lia. apply Z.pow_le_mono_r; lia. }
  assert (P2 : (0 < 2 ^ last_place n d)%Z) by (apply Z.pow_pos_nonneg; lia).
  assert (HN : (N < (N / d + 1) * d)%Z).
  { pose proof (Z.div_mod N d ltac:(lia)). pose proof (Z.mod_pos_bound N d Hd). nia. }
  apply Z.le_trans with (rne_div (2 ^ 53 * 1) 1);
    [apply rne_div_mono; [nia | lia | nia] | rewrite rne_div_exact; lia].
Qed.

Lemma significand_lower (n d : Z) :
  (0 < n)%Z -> (0 < d)%Z -> (0 < last_place n d)%Z -> (2 ^ 52 <= significand n d)%Z.
Proof.
  intros Hn Hd Hc. rewrite significand_eq by assumption.
  assert (Hu : (0 <= unit_exp)%Z) by (unfold unit_exp; lia).
  set (N := (n * 2 ^ unit_exp)%Z).
  assert (Hc' : last_place n d = (Z.log2 (N / d) - 52)%Z).
  { unfold last_place in *. rewrite Z.shiftl_mul_pow2 in * by lia. fold N in Hc |- *. lia. }
  assert (HFpos : (0 < N / d)%Z).
  { destruct (Z.lt_ge_cases 0 (N / d)); [assumption|].
    rewrite Z.log2_nonpos in Hc' by assumption. lia. }
  pose proof (Z.log2_spec (N / d) HFpos) as [Hlow _].
  assert (Hpow : (2 ^ Z.log2 (N / d) = 2 ^ 52 * 2 ^ last_place n d)%Z).
  { rewrite <- Z.pow_add_r by lia. f_equal. lia. }
  assert (P2 : (0 < 2 ^ last_place n d)%Z) by (apply Z.pow_pos_nonneg; lia).
  pose proof (Z.mul_div_le N d Hd) as HNd.
  apply Z.le_trans with (rne_div (2 ^ 52 * 1) 1);
    [rewrite rne_div_exact; lia | apply rne_div_mono; [lia | nia | nia]].
Qed.

Lemma units_mono (n1 d1 n2 d2 : Z) :
  (0 < n1)%Z -> (0 < d1)%Z -> (0 < n2)%Z -> (0 < d2)%Z ->
  (n1 * d2 <= n2 * d1)%Z -> (units n1 d1 <= units n2 d2)%Z.
Proof.
  intros Hn1 Hd1 Hn2 Hd2 Hle. unfold units.
  assert (Hu : (0 <= unit_exp)%Z) by (unfold unit_exp; lia).
  assert (PS : (0 < 2 ^ unit_exp)%Z) by (apply Z.pow_pos_nonneg; lia).
  assert (Hc : (last_place n1 d1 <= last_place n2 d2)%Z).
  { unfold last_place. rewrite !Z.shiftl_mul_pow2 by lia.
    apply Z.max_le_compat_l, Z.sub_le_mono_r, Z.log2_le_mono.
    apply div_cross_mono; [assumption | assumption | nia]. }
  pose proof (last_place_nonneg n1 d1) as Hc1.
  pose proof (last_place_nonneg n2 d2) as Hc2.
  assert (P1 : (0 < 2 ^ last_place n1 d1)%Z) by (apply Z.pow_pos_nonneg; lia).
  assert (P2 : (0 < 2 ^ last_place n2 d2)%Z) by (apply Z.pow_pos_nonneg; lia).
  destruct (Z.eq_dec (last_place n1 d1) (last_place n2 d2)) as [E|E].
  - apply Z.mul_le_mono_nonneg; [| |lia|rewrite E; lia].
    + rewrite significand_eq by assumption.
      apply Z.le_trans with (rne_div (0 * 1) 1);
        [rewrite rne_div_exact; lia | apply rne_div_mono; [lia | nia | nia]].
    + rewrite !significand_eq by assumption. rewrite E.
      apply rne_div_mono; [nia | nia | nia].
  - pose proof (significand_upper Hn1 Hd1) as U1.
    pose proof (significand_lower Hn2 Hd2 ltac:(lia)) as L2.
    assert (Hp : (2 ^ 53 * 2 ^ last_place n1 d1 <= 2 ^ 52 * 2 ^ last_place n2 d2)%Z).
    { rewrite <- !Z.pow_add_r by lia. apply Z.pow_le_mono_r; lia. }
    nia.
Qed.

Lemma units_nonneg (n d : Z) : (0 < n)%Z -> (0 < d)%Z -> (0 <= units n d)%Z.
Proof.
  intros Hn Hd. unfold units.
  assert (Hu : (0 <= unit_exp)%Z) by (unfold unit_exp; lia).
  assert (PS : (0 < 2 ^ unit_exp)%Z) by (apply Z.pow_pos_nonneg; lia).
  pose proof (last_place_nonneg n d) as Hc.
  assert (P2 : (0 < 2 ^ last_place n d)%Z) by (apply Z.pow_pos_nonneg; lia).
  apply Z.mul_nonneg_nonneg; [|lia].
  rewrite significand_eq by assumption.
  apply Z.le_trans with (rne_div (0 * 1) 1);
    [rewrite rne_div_exact; lia | apply rne_div_mono; [lia | nia | nia]].
Qed.


Lemma dyadic_le (m1 c1 m2 c2 : Z) :
  (0 <= c1)%Z -> (0 <= c2)%Z -> (m1 * 2 ^ c1 <= m2 * 2 ^ c2)%Z ->
  (dyadic m1 c1 <= dyadic m2 c2)%Q.
Proof.
  intros H1 H2 Hle. unfold dyadic, Qle. cbn [Qnum Qden].
  assert (Hu : (0 <= unit_exp)%Z) by (unfold unit_exp; lia).
  rewrite !Z.shiftl_mul_pow2 by lia. rewrite !Z.mul_1_l.
  assert (PA1 : (0 < 2 ^ Z.max 0 (unit_exp - c1))%Z) by (apply Z.pow_pos_nonneg; lia).
  assert (PA2 : (0 < 2 ^ Z.max 0 (unit_exp - c2))%Z) by (apply Z.pow_pos_nonneg; lia).
  rewrite !Z2Pos.id by assumption.
  assert (PS : (0 < 2 ^ unit_exp)%Z) by (apply Z.pow_pos_nonneg; lia).
  assert (E1 : (2 ^ Z.max 0 (c1 - unit_exp) * 2 ^ unit_exp
                = 2 ^ c1 * 2 ^ Z.max 0 (unit_exp - c1))%Z).
  { rewrite <- !Z.pow_add_r by lia. f_equal. lia. }
  assert (E2 : (2 ^ Z.max 0 (c2 - unit_exp) * 2 ^ unit_exp
                = 2 ^ c2 * 2 ^ Z.max 0 (unit_exp - c2))%Z).
  { rewrite <- !Z.pow_add_r by lia. f_equal. lia. }
  apply Z.mul_le_mono_pos_r with (p := (2 ^ unit_exp)%Z); [assumption|].
  set (A1 := (2 ^ Z.max 0 (unit_exp - c1))%Z) in *.
  set (A2 := (2 ^ Z.max 0 (unit_exp - c2))%Z) in *.
  replace (m1 * 2 ^ Z.max 0 (c1 - unit_exp) * A2 * 2 ^ unit_exp)%Z
    with (m1 * (2 ^ Z.max 0 (c1 - unit_exp) * 2 ^ unit_exp) * A2)%Z by ring.
  replace (m2 * 2 ^ Z.max 0 (c2 - unit_exp) * A1 * 2 ^ unit_exp)%Z
    with (m2 * (2 ^ Z.max 0 (c2 - unit_exp) * 2 ^ unit_exp) * A1)%Z by ring.
  rewrite E1, E2.
  replace (m1 * (2 ^ c1 * A1) * A2)%Z with (m1 * 2 ^ c1 * (A1 * A2))%Z by ring.
  replace (m2 * (2 ^ c2 * A2) * A1)%Z with (m2 * 2 ^ c2 * (A1 * A2))%Z by ring.
  apply Z.mul_le_mono_nonneg_r; [nia | assumption].
Qed.

Lemma dyadic_zero (c : Z) : (dyadic 0 c == 0)%Q.
Proof. unfold dyadic, Qeq. cbn [Qnum Qden]. now rewrite Z.shiftl_0_l. Qed.

Lemma pos_le (n d : Z) :
  (0 < n)%Z -> (0 < d)%Z -> (0 <= dyadic (significand n d) (last_place n d))%Q.
Proof.
  intros Hn Hd. rewrite <- (dyadic_zero 0).
  apply dyadic_le; [lia | apply last_place_nonneg |].
  pose proof (units_nonneg Hn Hd). unfold units in *. lia.
Qed.

Lemma neg_le (n d : Z) :
  (0 < n)%Z -> (0 < d)%Z -> (dyadic (- significand n d) (last_place n d) <= 0)%Q.
Proof.
  intros Hn Hd. rewrite <- (dyadic_zero 0).
  apply dyadic_le; [apply last_place_nonneg | lia |].
  pose proof (units_nonneg Hn Hd). unfold units in *. lia.
Qed.

(** Rounding keeps the order. *)
Lemma round_mono (x y : Q) : (x <= y)%Q -> (round x <= round y)%Q.
Proof.
  destruct x as [n1 d1], y as [n2 d2]. intros Hle.
  unfold Qle in Hle. cbn [Qnum Qden] in Hle. unfold round. cbn [Qnum Qden].
  destruct n1 as [|p1|p1], n2 as [|p2|p2]; try lia.
  - apply Qle_refl.
  - apply pos_le; lia.
  - apply dyadic_le; try apply last_place_nonneg.
    apply (@units_mono (Zpos p1) (Zpos d1) (Zpos p2) (Zpos d2)); lia.
  - apply neg_le; lia.
  - apply Qle_trans with 0%Q; [apply neg_le | apply pos_le]; lia.
  - apply dyadic_le; try apply last_place_nonneg.
    pose proof (@units_mono (Zpos p2) (Zpos d2) (Zpos p1) (Zpos d1)
                  ltac:(lia) ltac:(lia) ltac:(lia) ltac:(lia) ltac:(lia)) as H.
    unfold units in H. lia.
Qed.

Lemma div_mono (x y c : Q) : (0 < c)%Q -> (x <= y)%Q -> (div x c <= div y c)%Q.
Proof.
  intros Hc Hle. unfold div. apply round_mono.
  unfold Qdiv. apply Qmult_le_compat_r; [assumption|].
  apply Qlt_le_weak, Qinv_lt_0_compat, Hc.
Qed.

End FloatFacts.

(** ** The floats of the relative style, as steps of the distance *)

Lemma ltb_spec (x y : Q) : ltb x y = true <-> (x < y)%Q.
Proof. unfold ltb, Qlt. apply Z.ltb_lt. Qed.

Lemma total_seconds_mono (a b : Z) :
  (a <= b)%Z -> (total_seconds a <= total_seconds b)%Q.
Proof.
  intros H. unfold total_seconds. apply FloatFacts.round_mono.
  unfold Qle. cbn [Qnum Qden]. nia.
Qed.

Lemma days_of_mono (a b : Z) : (a <= b)%Z -> (days_of a <= days_of b)%Q.
Proof.
  intros H. apply FloatFacts.div_mono; [reflexivity | now apply total_seconds_mono].
Qed.

Lemma hours_of_mono (a b : Z) : (a <= b)%Z -> (hours_of a <= hours_of b)%Q.
Proof.
  intros H. apply FloatFacts.div_mono; [reflexivity | now apply total_seconds_mono].
Qed.

Lemma months_of_mono (a b : Z) : (a <= b)%Z -> (months_of a <= months_of b)%Q.
Proof. intros H. apply FloatFacts.div_mono; [reflexivity | now apply days_of_mono]. Qed.

Lemma years_of_mono (a b : Z) : (a <= b)%Z -> (years_of a <= years_of b)%Q.
Proof. intros H. apply FloatFacts.div_mono; [reflexivity | now apply days_of_mono]. Qed.

Section Steps.

Variable p : Z -> Q.
Hypothesis p_mono : forall a b, (a <= b)%Z -> (p a <= p b)%Q.

Lemma floor_of_mono (a b : Z) : (a <= b)%Z -> (floor_of p a <= floor_of p b)%Z.
Proof. intros H. apply Qfloor_resp_le, p_mono, H. Qed.

Lemma neg_ceil_of_mono (a b : Z) :
  (a <= b)%Z -> (neg_ceil_of p a <= neg_ceil_of p b)%Z.
Proof.
  intros H. unfold neg_ceil_of. apply Z.opp_le_mono.
  rewrite !Z.opp_involutive. apply Qceiling_resp_le, p_mono. lia.
Qed.

(** A test [k < p td] flips where [p] passes [k]. *)
Lemma passes_above (k : Q) (t td : Z) :
  (p t <= k)%Q -> (k < p (t + 1))%Q -> ltb k (p td) = (t <? td)%Z.
Proof.
  intros Hlo Hhi. destruct (Z.ltb_spec t td) as [H|H].
  - apply ltb_spec. apply Qlt_le_trans with (p (t + 1)); [exact Hhi|].
    apply p_mono. lia.
  - destruct (ltb k (p td)) eqn:E; [|reflexivity].
    apply ltb_spec in E. exfalso.
    apply (Qlt_irrefl k). apply Qlt_le_trans with (p td); [exact E|].
    apply Qle_trans with (p t); [apply p_mono; lia | exact Hlo].
Qed.

Lemma passes_below (k : Q) (t td : Z) :
  (k <= p t)%Q -> (p (t - 1) < k)%Q -> ltb (p td) k = (td <? t)%Z.
Proof.
  intros Hhi Hlo. destruct (Z.ltb_spec td t) as [H|H].
  - apply ltb_spec. apply Qle_lt_trans with (p (t - 1)); [|exact Hlo].
    apply p_mono. lia.
  - destruct (ltb (p td) k) eqn:E; [|reflexivity].
    apply ltb_spec in E. exfalso.
    apply (Qlt_irrefl k). apply Qle_lt_trans with (p td); [|exact E].
    apply Qle_trans with (p t); [exact Hhi | apply p_mono; lia].
Qed.

End Steps.

(** A monotone function that is checked at both ends of every stretch
    is the whole-number quotient on all of them. *)
Lemma steps_sound (f : Z -> Z) (s first : Z) (count : nat) (x : Z) :
  (forall a b, (a <= b)%Z -> (f a <= f b)%Z) ->
  (0 < s)%Z ->
  steps_ok f s first count = true ->
  (first * s <= x < (first + Z.of_nat count) * s)%Z ->
  f x = (x / s)%Z.
Proof.
  intros Hmono Hs Hok [Hlo Hhi].
  pose proof (Z.div_mod x s ltac:(lia)) as Hx.
  pose proof (Z.mod_pos_bound x s Hs) as Hr.
  set (k := (x / s)%Z) in *.
  assert (Hk : (first <= k < first + Z.of_nat count)%Z) by nia.
  unfold steps_ok in Hok. rewrite forallb_forall in Hok.
  assert (Hin : In k (map (fun i => (first + Z.of_nat i)%Z) (seq 0 count))).
  { apply in_map_iff. exists (Z.to_nat (k - first)). split; [lia|].
    apply in_seq. lia. }
  apply Hok in Hin. unfold step_ok in Hin.
  apply andb_true_iff in Hin. destruct Hin as [H1 H2].
  apply Z.eqb_eq in H1, H2.
  pose proof (Hmono (k * s)%Z x ltac:(nia)) as L.
  pose proof (Hmono x (k * s + s - 1)%Z ltac:(nia)) as U.
  lia.
Qed.

Lemma int_of_float_nonneg (x : Q) : (0 <= x)%Q -> int_of_float x = Qfloor x.
Proof.
  destruct x as [n d]. unfold Qle, int_of_float, Qfloor. cbn [Qnum Qden].
  intros H. apply Z.quot_div_nonneg; lia.
Qed.

Lemma int_of_float_abs_nonpos (x : Q) :
  (x <= 0)%Q -> int_of_float (Qabs x) = (- Qceiling x)%Z.
Proof.
  destruct x as [n d]. unfold Qle, int_of_float, Qceiling, Qfloor, Qabs, Qopp.
  cbn [Qnum Qden]. intros H.
  rewrite Z.opp_involutive, Z.quot_div_nonneg by lia.
  f_equal. lia.
Qed.

(** The checks, by evaluation. *)
Lemma hours_steps_up : steps_ok (floor_of hours_of) hour_us 0 24 = true.
Proof. vm_compute. reflexivity. Qed.

Lemma hours_steps_down : steps_ok (neg_ceil_of hours_of) hour_us 0 24 = true.
Proof. vm_compute. reflexivity. Qed.

Lemma days_steps_floor : steps_ok (floor_of days_of) day_us (-31) 62 = true.
Proof. vm_compute. reflexivity. Qed.

Lemma days_steps_ceil : steps_ok (neg_ceil_of days_of) day_us (-31) 62 = true.
Proof. vm_compute. reflexivity. Qed.

Lemma months_steps : steps_ok (neg_ceil_of months_of) (30 * day_us) (-13) 26 = true.
Proof. vm_compute. reflexivity. Qed.

Lemma years_steps :
  steps_ok (neg_ceil_of years_of) (365 * day_us) (-545) 1089 = true.
Proof. vm_compute. reflexivity. Qed.

(** Where the tests of the ladder flip. *)
Ltac evaluate :=
  vm_compute; first [reflexivity | let H := fresh in intro H; discriminate H].

Lemma ltb_abs (x y : Q) : ltb (Qabs x) y = (ltb (Qopp y) x && ltb x y)%bool.
Proof.
  apply Bool.eq_iff_eq_true.
  rewrite andb_true_iff, !ltb_spec. apply Qabs_Qlt_condition.
Qed.

Lemma abs_days_lt_1 (td : Z) :
  ltb (Qabs (days_of td)) 1 = (Z.abs td <? day_us)%Z.
Proof.
  rewrite ltb_abs.
  rewrite (@passes_above days_of days_of_mono (Qopp 1) (- day_us)%Z td) by evaluate.
  rewrite (@passes_below days_of days_of_mono 1%Q day_us td) by evaluate.
  destruct (Z.ltb_spec (- day_us) td), (Z.ltb_spec td day_us),
    (Z.ltb_spec (Z.abs td) day_us); try reflexivity; lia.
Qed.

Lemma hours_pos (td : Z) : ltb 0 (hours_of td) = (0 <? td)%Z.
Proof. apply (@passes_above hours_of hours_of_mono 0%Q 0%Z td); evaluate. Qed.

Lemma days_gt_365 (td : Z) : ltb 365 (days_of td) = (365 * day_us <? td)%Z.
Proof. apply (@passes_above days_of days_of_mono 365%Q (365 * day_us)%Z td); evaluate. Qed.

Lemma days_gt_30 (td : Z) : ltb 30 (days_of td) = (30 * day_us <? td)%Z.
Proof. apply (@passes_above days_of days_of_mono 30%Q (30 * day_us)%Z td); evaluate. Qed.

Lemma days_gt_0 (td : Z) : ltb 0 (days_of td) = (0 * day_us <? td)%Z.
Proof. apply (@passes_above days_of days_of_mono 0%Q (0 * day_us)%Z td); evaluate. Qed.

Lemma days_lt_365 (td : Z) : ltb (days_of td) (-365) = (td <? -365 * day_us)%Z.
Proof. apply (@passes_below days_of days_of_mono (-365)%Q (-365 * day_us)%Z td); evaluate. Qed.

Lemma days_lt_30 (td : Z) : ltb (days_of td) (-30) = (td <? -30 * day_us)%Z.
Proof. apply (@passes_below days_of days_of_mono (-30)%Q (-30 * day_us)%Z td); evaluate. Qed.

(** The roundings of the ladder as whole-number divisions of the
    distance, as far as the check of the steps reaches. *)
Lemma ceil_by_steps (p : Z -> Q) (s first : Z) (count : nat) (td : Z) :
  (forall a b, (a <= b)%Z -> (p a <= p b)%Q) ->
  (0 < s)%Z ->
  steps_ok (neg_ceil_of p) s first count = true ->
  (first * s <= - td < (first + Z.of_nat count) * s)%Z ->
  ceil (p td) = (- (- td / s))%Z.
Proof.
  intros Hmono Hs Hok Hr.
  pose proof (@steps_sound (neg_ceil_of p) s first count (- td)%Z
                (@neg_ceil_of_mono p Hmono) Hs Hok Hr) as E.
  unfold neg_ceil_of in E. rewrite Z.opp_involutive in E.
  unfold ceil. lia.
Qed.

Lemma int_hours (td : Z) :
  (0 <= td < day_us)%Z -> int_of_float (hours_of td) = (td ÷ hour_us)%Z.
Proof.
  intros Hr.
  rewrite int_of_float_nonneg.
  2:{ apply Qle_trans with (hours_of 0); [evaluate | apply hours_of_mono; lia]. }
  change (Qfloor (hours_of td)) with (floor_of hours_of td).
  rewrite (@steps_sound (floor_of hours_of) hour_us 0 24 td
             (@floor_of_mono hours_of hours_of_mono) eq_refl hours_steps_up)
    by (unfold day_us, hour_us in *; lia).
  symmetry. apply Z.quot_div_nonneg; unfold hour_us; lia.
Qed.

Lemma int_abs_hours (td : Z) :
  (- day_us < td <= 0)%Z ->
  int_of_float (Qabs (hours_of td)) = (Z.abs td ÷ hour_us)%Z.
Proof.
  intros Hr.
  rewrite int_of_float_abs_nonpos.
  2:{ apply Qle_trans with (hours_of 0); [apply hours_of_mono; lia | evaluate]. }
  replace td with (- - td)%Z at 1 by lia.
  change (- Qceiling (hours_of (- - td)))%Z with (neg_ceil_of hours_of (- td)).
  rewrite (@steps_sound (neg_ceil_of hours_of) hour_us 0 24 (- td)%Z
             (@neg_ceil_of_mono hours_of hours_of_mono) eq_refl hours_steps_down)
    by (unfold day_us, hour_us in *; lia).
  rewrite Z.abs_neq by lia.
  symmetry. apply Z.quot_div_nonneg; unfold hour_us; lia.
Qed.

Lemma ceil_years (td : Z) :
  (- (544 * (365 * day_us)) < td <= 545 * (365 * day_us))%Z ->
  ceil (years_of td) = (- (- td / (365 * day_us)))%Z.
Proof.
  intros Hr.
  apply (@ceil_by_steps years_of (365 * day_us) (-545) 1089 td years_of_mono eq_refl
           years_steps).
  unfold day_us in *. lia.
Qed.

Lemma ceil_months (td : Z) :
  (- (13 * (30 * day_us)) < td <= 13 * (30 * day_us))%Z ->
  ceil (months_of td) = (- (- td / (30 * day_us)))%Z.
Proof.
  intros Hr.
  apply (@ceil_by_steps months_of (30 * day_us) (-13) 26 td months_of_mono eq_refl
           months_steps).
  unfold day_us in *. lia.
Qed.

Lemma ceil_days (td : Z) :
  (- (31 * day_us) < td <= 31 * day_us)%Z ->
  ceil (days_of td) = (- (- td / day_us))%Z.
Proof.
  intros Hr.
  apply (@ceil_by_steps days_of day_us (-31) 62 td days_of_mono eq_refl days_steps_ceil).
  unfold day_us in *. lia.
Qed.

Lemma floor_days (td : Z) :
  (- (31 * day_us) <= td < 31 * day_us)%Z ->
  floor (days_of td) = (td / day_us)%Z.
Proof.
  intros Hr.
  apply (@steps_sound (floor_of days_of) day_us (-31) 62 td
           (@floor_of_mono days_of days_of_mono) eq_refl days_steps_floor).
  unfold day_us in *. lia.
Qed.

(** ** Date Formatter *)

Section FormatterFacts.

Variable isoformat : datetime -> string.
Variable astimezone : datetime -> result datetime.
Variable strftime : datetime -> string.
Variable clock : nat -> Z.

Local Notation "'fmt'" := (format_duedate isoformat astimezone strftime clock).

(** The [relative] style on an aware instant less than 544 years back
    and at most 545 years ahead, with every float test and rounding
    expressed on the signed microsecond distance [td]. *)
Lemma relative_cases (dt : datetime) (off : Z) (n : nat) :
  tzinfo dt = Some off ->
  let td := (wall dt - off - clock n)%Z in
  (- (544 * (365 * day_us)) < td <= 545 * (365 * day_us))%Z ->
  fmt (Some dt) "relative" n =
  Ok (if (Z.abs td <? day_us)%Z then
        if (0 <? td)%Z then ("in " ++ str_int (td ÷ hour_us) ++ " hour(s)")%string
        else (str_int (Z.abs td ÷ hour_us) ++ "hour(s) ago")%string
      else if (365 * day_us <? td)%Z then
        ("in " ++ str_int (- (- td / (365 * day_us))) ++ " year(s)")%string
      else if (30 * day_us <? td)%Z then
        ("in " ++ str_int (- (- td / (30 * day_us))) ++ " month(s)")%string
      else if (0 * day_us <? td)%Z then
        ("in " ++ str_int (- (- td / day_us)) ++ " days")%string
      else if (td <? -365 * day_us)%Z then
        (str_int (Z.abs (- (- td / (365 * day_us)))) ++ " year(s) ago")%string
      else if (td <? -30 * day_us)%Z then
        (str_int (Z.abs (- (- td / (30 * day_us)))) ++ " month(s) ago")%string
      else (str_int (Z.abs (td / day_us)) ++ " days ago")%string,
      S n).
Proof.
  intros Htz td Hr.
  destruct dt as [w tz]; simpl in Htz; subst tz.
  cbv beta iota zeta delta [format_duedate bind datetime_now_utc lift sub_datetime ret
    tzinfo wall String.eqb Ascii.eqb Bool.eqb utc].
  replace (w - off - (clock n - 0))%Z with td by (subst td; simpl; lia).
  change (Float.div (Float.div (total_seconds td) 86400) 365) with (years_of td).
  change (Float.div (Float.div (total_seconds td) 86400) 30) with (months_of td).
  change (Float.div (total_seconds td) 86400) with (days_of td).
  change (Float.div (total_seconds td) 3600) with (hours_of td).
  rewrite abs_days_lt_1, hours_pos, days_gt_365, days_gt_30, days_gt_0,
    days_lt_365, days_lt_30.
  assert (Hday : day_us = 86400000000%Z) by reflexivity.
  destruct (Z.ltb_spec (Z.abs td) day_us).
  { destruct (Z.ltb_spec 0 td).
    - now rewrite int_hours by lia.
    - now rewrite int_abs_hours by lia. }
  destruct (Z.ltb_spec (365 * day_us) td); [now rewrite ceil_years|].
  destruct (Z.ltb_spec (30 * day_us) td); [now rewrite ceil_months by lia|].
  destruct (Z.ltb_spec (0 * day_us) td); [now rewrite ceil_days by lia|].
  destruct (Z.ltb_spec td (-365 * day_us)); [now rewrite ceil_years|].
  destruct (Z.ltb_spec td (-30 * day_us)); [now rewrite ceil_months by lia|].
  now rewrite floor_days by lia.
Qed.

(** Below a threshold of a positive number of days the floor of the
    magnitude is what [abs(math.ceil(.))] leaves. *)
Lemma abs_ceil_neg (e d : Z) :
  (0 < d)%Z -> (0 <= e)%Z -> Z.abs (- (- - e / d)) = (e / d)%Z.
Proof.
  intros Hd He. rewrite Z.opp_involutive, Z.abs_opp.
  apply Z.abs_eq. apply Z.div_pos; lia.
Qed.

(** On an aware instant the formatter returns, whatever the style and
    the distance. *)
Lemma format_duedate_returns (dt : datetime) (off : Z) (style : string) :
  tzinfo dt = Some off ->
  returns (format_duedate isoformat astimezone strftime clock (Some dt) style).
Proof.
  intros Htz n.
  destruct (String.eqb_spec style "relative") as [->|Hne].
  - destruct dt as [w tz]; simpl in Htz; subst tz.
    cbv beta iota zeta delta [format_duedate bind datetime_now_utc lift sub_datetime ret
      tzinfo wall String.eqb Ascii.eqb Bool.eqb utc].
    repeat match goal with
      | |- context [if ?b then _ else _] => destruct b
      end; eauto.
  - apply String.eqb_neq in Hne.
    unfold format_duedate, bind, datetime_now_utc, ret.
    rewrite Hne.
    destruct (style =? "iso")%string; [eauto|].
    destruct (style =? "local")%string; [|eauto].
    destruct (astimezone dt); eauto.
Qed.

End FormatterFacts.

(** C1 (as the code has it): more than 365 days and less than 544 years
    of 365 days back the relative style prints the whole number of
    365-day years elapsed, rounded down, and between 30 and 365 days back
    the whole number of 30-day months elapsed, rounded down. *)
Theorem format_duedate_relative_past_rounds_down :
  forall isoformat astimezone strftime clock (dt : datetime) (off : Z) (n : nat),
    tzinfo dt = Some off ->
    let elapsed := (clock n - (wall dt - off))%Z in
    (30 * day_us < elapsed < 544 * (365 * day_us))%Z ->
    format_duedate isoformat astimezone strftime clock (Some dt) "relative" n =
    Ok (if (365 * day_us <? elapsed)%Z
        then (str_int (elapsed / (365 * day_us)) ++ " year(s) ago")%string
        else (str_int (elapsed / (30 * day_us)) ++ " month(s) ago")%string,
        S n).
Proof.
  intros iso astz strf clock dt off n Htz elapsed [Hlt Hup].
  rewrite (relative_cases iso astz strf clock dt n Htz) by (subst elapsed; lia).
  cbv zeta.
  replace (wall dt - off - clock n)%Z with (- elapsed)%Z by (subst elapsed; lia).
  assert (Hday : (0 < day_us)%Z) by (unfold day_us; lia).
  rewrite !abs_ceil_neg by lia.
  destruct (Z.ltb_spec (Z.abs (- elapsed)) day_us); [lia|].
  destruct (Z.ltb_spec (365 * day_us) (- elapsed)); [lia|].
  destruct (Z.ltb_spec (30 * day_us) (- elapsed)); [lia|].
  destruct (Z.ltb_spec (0 * day_us) (- elapsed)); [lia|].
  destruct (Z.ltb_spec (- elapsed) (-365 * day_us));
    destruct (Z.ltb_spec (365 * day_us) elapsed); try lia; try reflexivity.
  destruct (Z.ltb_spec (- elapsed) (-30 * day_us)); [reflexivity|lia].
Qed.

(** The rule at 400 days back, with the clock reading 0. *)
Lemma format_duedate_relative_past_rounds_down_witness :
  Sample.relative (Sample.at_offset (-400 * day_us)) = Ok ("1 year(s) ago"%string, 1%nat).
Proof.
  pose proof (format_duedate_relative_past_rounds_down
                Sample.isoformat Sample.astimezone Sample.strftime Sample.clock
                (Sample.at_offset (-400 * day_us)) 0%nat eq_refl (conj eq_refl eq_refl))
    as H.
  vm_compute in H |- *. exact H.
Defined.

(** C1 as the specification words it fails 400 days back: the formatter
    answers with one year, not with two. *)
Lemma relative_400_days_back_is_one_year :
  Sample.relative (Sample.at_offset (-400 * day_us)) = Ok ("1 year(s) ago"%string, 1%nat)
  /\ Sample.relative (Sample.at_offset (-400 * day_us))
     <> Ok ("2 year(s) ago"%string, 1%nat).
Proof. split; evaluate. Qed.

(** Further back the doubles stop following the whole-number count: a
    microsecond short of 545 years back the quotient of the two floats
    rounds to 545 exactly, and that is what is printed. *)
Example relative_545_years_back :
  Sample.relative (Sample.at_offset (- (545 * (365 * day_us) - 1)))
  = Ok ("545 year(s) ago"%string, 1%nat)
  /\ ((545 * (365 * day_us) - 1) / (365 * day_us) = 544)%Z.
Proof. split; evaluate. Qed.

(** The same rounding one step down the ladder: 40 days back is one month. *)
Example relative_40_days_back :
  Sample.relative (Sample.at_offset (-40 * day_us)) = Ok ("1 month(s) ago"%string, 1%nat).
Proof. evaluate. Qed.

(** The future side and the day bucket of the ladder, for comparison. *)
Example relative_400_days_ahead :
  Sample.relative (Sample.at_offset (400 * day_us)) = Ok ("in 2 year(s)"%string, 1%nat).
Proof. evaluate. Qed.

Example relative_36_hours_back :
  Sample.relative (Sample.at_offset (-36 * hour_us)) = Ok ("2 days ago"%string, 1%nat).
Proof. evaluate. Qed.

Example relative_12_hours_ahead :
  Sample.relative (Sample.at_offset (12 * hour_us)) = Ok ("in 12 hour(s)"%string, 1%nat).
Proof. evaluate. Qed.

Example relative_2_days_ahead :
  Sample.relative (Sample.at_offset (2 * day_us)) = Ok ("in 2 days"%string, 1%nat).
Proof. evaluate. Qed.

Example relative_40_days_ahead :
  Sample.relative (Sample.at_offset (40 * day_us)) = Ok ("in 2 month(s)"%string, 1%nat).
Proof. evaluate. Qed.

(** Less than a day away the formatter counts whole hours, truncated
    towards zero; the two directions are worded by different templates. *)
Lemma relative_within_a_day :
  forall isoformat astimezone strftime clock (dt : datetime) (off : Z) (n : nat),
    tzinfo dt = Some off ->
    let td := (wall dt - off - clock n)%Z in
    (Z.abs td < day_us)%Z ->
    format_duedate isoformat astimezone strftime clock (Some dt) "relative" n =
    Ok (if (0 <? td)%Z
        then ("in " ++ str_int (Z.abs td ÷ hour_us) ++ " hour(s)")%string
        else (str_int (Z.abs td ÷ hour_us) ++ "hour(s) ago")%string,
        S n).
Proof.
  intros iso astz strf clock dt off n Htz td Hlt.
  rewrite (relative_cases iso astz strf clock dt n Htz)
    by (fold td; unfold day_us in *; lia).
  fold td.
  destruct (Z.ltb_spec (Z.abs td) day_us); [|lia].
  destruct (Z.ltb_spec 0 td); [|reflexivity].
  now rewrite (Z.abs_eq td) by lia.
Qed.

(** C2 (as the code has it): an instant equal to the clock reading falls
    in the hours bucket, which is tested first; the text is the count 0
    followed by the words of the past-hours template. *)
Theorem format_duedate_relative_now_counts_hours :
  forall isoformat astimezone strftime clock (dt : datetime) (off : Z) (n : nat),
    tzinfo dt = Some off ->
    (wall dt - off)%Z = clock n ->
    exists sep : string,
      (sep = ""%string \/ sep = " "%string) /\
      format_duedate isoformat astimezone strftime clock (Some dt) "relative" n =
      Ok (("0" ++ sep ++ "hour(s) ago")%string, S n).
Proof.
  intros iso astz strf clock dt off n Htz Hnow.
  exists ""%string. split; [now left|].
  rewrite (relative_within_a_day iso astz strf clock dt n Htz);
    replace (wall dt - off - clock n)%Z with 0%Z by lia.
  - reflexivity.
  - reflexivity.
Qed.

(** The rule at the clock reading itself. *)
Lemma format_duedate_relative_now_counts_hours_witness :
  exists sep : string,
    (sep = ""%string \/ sep = " "%string) /\
    Sample.relative (Sample.at_offset 0) = Ok (("0" ++ sep ++ "hour(s) ago")%string, 1%nat).
Proof.
  exact (format_duedate_relative_now_counts_hours
           Sample.isoformat Sample.astimezone Sample.strftime Sample.clock
           (Sample.at_offset 0) 0%nat eq_refl eq_refl).
Defined.

(** C2 as the specification words it fails: the text for the present
    instant is not the day-bucket text. *)
Lemma relative_now_is_not_zero_days :
  Sample.relative (Sample.at_offset 0) = Ok ("0hour(s) ago"%string, 1%nat)
  /\ Sample.relative (Sample.at_offset 0) <> Ok ("0 days ago"%string, 1%nat).
Proof. split; evaluate. Qed.

(** C3 at two hours back: the past-hours template has no space between
    the count and the unit, unlike the future one. *)
Theorem relative_two_hours_back_has_no_space :
  Sample.relative (Sample.at_offset (-2 * hour_us)) = Ok ("2hour(s) ago"%string, 1%nat)
  /\ Sample.relative (Sample.at_offset (-2 * hour_us))
     <> Ok ("2 hour(s) ago"%string, 1%nat)
  /\ Sample.relative (Sample.at_offset (2 * hour_us)) = Ok ("in 2 hour(s)"%string, 1%nat).
Proof. repeat split; evaluate. Qed.

(** ** [sorted]: ascending, a permutation, and stable *)

Section SortedFacts.

Context {A : Type}.
Variable key : A -> Z.

Lemma insert_by_In (x y : A) (l : list A) :
  In y (insert_by key x l) <-> y = x \/ In y l.
Proof.
  induction l as [|a l IH]; simpl.
  - intuition.
  - destruct (key a <? key x)%Z; simpl; rewrite ?IH; intuition.
Qed.

Lemma insert_by_Forall (P : A -> Prop) (x : A) (l : list A) :
  P x -> Forall P l -> Forall P (insert_by key x l).
Proof.
  intros Hx Hl. apply Forall_forall. intros y Hy.
  apply insert_by_In in Hy. destruct Hy as [->|Hy]; [assumption|].
  now apply (proj1 (Forall_forall P l) Hl).
Qed.

Lemma insert_by_sorted (x : A) (l : list A) :
  StronglySorted (key_le key) l -> StronglySorted (key_le key) (insert_by key x l).
Proof.
  induction 1 as [|a l Hs IH Ha]; simpl.
  - repeat constructor.
  - destruct (Z.ltb_spec (key a) (key x)) as [Hlt|Hge].
    + constructor; [exact IH|].
      apply insert_by_Forall; [unfold key_le; lia | exact Ha].
    + constructor; [now constructor|].
      constructor; [exact Hge|].
      apply Forall_impl with (2 := Ha). unfold key_le. intros; lia.
Qed.

Lemma sorted_sorted (l : list A) : StronglySorted (key_le key) (sorted l key).
Proof.
  induction l as [|x l IH]; simpl; [constructor | now apply insert_by_sorted].
Qed.

Lemma sorted_In (y : A) (l : list A) : In y (sorted l key) <-> In y l.
Proof.
  induction l as [|x l IH]; simpl; [tauto|].
  rewrite insert_by_In, IH. intuition.
Qed.

Lemma insert_by_perm (x : A) (l : list A) : Permutation (insert_by key x l) (x :: l).
Proof.
  induction l as [|a l IH]; simpl; [reflexivity|].
  destruct (key a <? key x)%Z; [|reflexivity].
  rewrite IH. apply perm_swap.
Qed.

Lemma sorted_perm (l : list A) : Permutation (sorted l key) l.
Proof.
  induction l as [|x l IH]; simpl; [reflexivity|].
  rewrite insert_by_perm. now constructor.
Qed.

(** Stability: the elements of one key come out in the order they came in. *)
Lemma insert_by_same_key (k : Z) (x : A) (l : list A) :
  filter (fun a => key a =? k)%Z (insert_by key x l) =
  filter (fun a => key a =? k)%Z (x :: l).
Proof.
  induction l as [|a l IH]; [reflexivity|].
  cbn [insert_by].
  destruct (Z.ltb_spec (key a) (key x)) as [Hlt|Hge]; [|reflexivity].
  cbn [filter] in *. rewrite IH.
  destruct (Z.eqb_spec (key a) k), (Z.eqb_spec (key x) k); try reflexivity.
  lia.
Qed.

Lemma sorted_stable (k : Z) (l : list A) :
  filter (fun a => key a =? k)%Z (sorted l key) = filter (fun a => key a =? k)%Z l.
Proof.
  induction l as [|x l IH]; [reflexivity|].
  cbn [sorted]. rewrite insert_by_same_key. cbn [filter]. now rewrite IH.
Qed.

End SortedFacts.

(** ** Loops whose body always returns *)

Section LoopFacts.

Context {A B : Type}.
Variable f : A -> result B.
Variable g : A -> B.
Hypothesis f_returns : forall x, f x = Ok (g x).

Lemma mapM_returns (l : list A) : mapM f l = Ok (map g l).
Proof.
  induction l as [|x l IH]; simpl; [reflexivity|].
  now rewrite f_returns, IH.
Qed.

Lemma map_Forall2_entry (l : list A) :
  Forall2 (fun y x => f x = Ok y) (map g l) l.
Proof.
  induction l; simpl; constructor; auto.
Qed.

End LoopFacts.

Lemma filter_map_key {A B} (g : A -> B) (p : B -> bool) (q : A -> bool) (l : list A) :
  (forall x, p (g x) = q x) ->
  filter p (map g l) = map g (filter q l).
Proof.
  intros H. induction l as [|x l IH]; simpl; [reflexivity|].
  rewrite H. destruct (q x); simpl; now rewrite IH.
Qed.

Lemma map_sorted_key {A B} (g : A -> B) (ka : A -> Z) (kb : B -> Z) (l : list A) :
  (forall x, kb (g x) = ka x) ->
  StronglySorted (key_le ka) l -> StronglySorted (key_le kb) (map g l).
Proof.
  intros H. induction 1 as [|a l Hs IH Ha]; simpl; constructor; [exact IH|].
  apply Forall_map. apply Forall_impl with (2 := Ha).
  unfold key_le. intros b. now rewrite !H.
Qed.

(** ** Date Parser *)

Section NormalizerFacts.

Variable parse : string -> result datetime.

Lemma parse_duedate_returns (raw : option string) :
  parse_duedate parse raw = Ok (duedate_value parse raw).
Proof.
  unfold duedate_value, parse_duedate.
  destruct raw as [s|]; [|reflexivity].
  destruct (truthy s); [|reflexivity].
  simpl. destruct (parse s); reflexivity.
Qed.

Lemma card_entry_returns (c : RawCard.t) : card_entry parse c = Ok (card_value parse c).
Proof.
  unfold card_value, card_entry. now rewrite parse_duedate_returns.
Qed.

Lemma card_value_order (c : RawCard.t) : card_order (card_value parse c) = card_key c.
Proof.
  unfold card_value, card_entry. now rewrite parse_duedate_returns.
Qed.

Lemma card_value_archived (c : RawCard.t) :
  Card.archived (card_value parse c) = get_default (RawCard.archived c) false.
Proof.
  unfold card_value, card_entry. now rewrite parse_duedate_returns.
Qed.

Lemma block_entry_returns (include_archived : bool) (s : RawStack.t) :
  block_entry parse include_archived s = Ok (block_value parse include_archived s).
Proof.
  unfold block_entry.
  now rewrite (mapM_returns (card_entry parse) (card_value parse) card_entry_returns).
Qed.

Lemma build_grouped_model_returns (stacks : list RawStack.t) (include_archived : bool) :
  build_grouped_model parse stacks include_archived =
  Ok (map (block_value parse include_archived) (sorted stacks stack_key)).
Proof.
  unfold build_grouped_model.
  apply mapM_returns. apply block_entry_returns.
Qed.

Lemma block_cards_sorted (include_archived : bool) (s : RawStack.t) :
  StronglySorted (key_le card_order) (Block.cards (block_value parse include_archived s)).
Proof.
  apply map_sorted_key with (ka := card_key);
    [apply card_value_order | apply sorted_sorted].
Qed.

Lemma block_cards_stable (include_archived : bool) (s : RawStack.t) (k : Z) :
  filter (fun c => card_order c =? k)%Z (Block.cards (block_value parse include_archived s)) =
  map (card_value parse)
    (filter (fun c => card_key c =? k)%Z (kept_cards s include_archived)).
Proof.
  cbn [block_value Block.cards].
  rewrite filter_map_key with (q := fun c => (card_key c =? k)%Z).
  - now rewrite sorted_stable.
  - intros c. now rewrite card_value_order.
Qed.

End NormalizerFacts.

(** C8: the Date Parser never raises; an absent, empty or unparseable
    input gives an absent result; a parsed value without an offset is
    returned with UTC attached and one with an offset as it is; so every
    result that is present is timezone-aware. *)
Theorem parse_duedate_absent_or_aware :
  forall (parse : string -> result datetime) (raw : option string),
  exists r : option datetime,
    parse_duedate parse raw = Ok r /\
    (raw = None -> r = None) /\
    (forall s, raw = Some s -> (forall dt, parse s <> Ok dt) -> r = None) /\
    (forall s dt, raw = Some s -> s <> ""%string -> parse s = Ok dt ->
       r = Some (match tzinfo dt with
                 | None => {| wall := wall dt; tzinfo := Some utc |}
                 | Some _ => dt
                 end)) /\
    (forall dt, r = Some dt -> exists off, tzinfo dt = Some off).
Proof.
  intros parse raw. unfold parse_duedate.
  destruct raw as [s|].
  2:{ exists None. repeat split; try congruence; discriminate. }
  destruct s as [|c s].
  { exists None. repeat split; try congruence; discriminate. }
  cbn [truthy negb]. destruct (parse (String c s)) as [dt|e] eqn:Hp; cbn.
  - eexists. split; [reflexivity|]. repeat split.
    + discriminate.
    + intros s' [= <-] Hfail. now destruct (Hfail dt).
    + intros s' dt' [= <-] _ Hp'. rewrite Hp in Hp'. injection Hp' as <-.
      reflexivity.
    + intros dt' [= <-]. destruct (tzinfo dt) eqn:Htz; cbn; eauto.
  - exists None. split; [reflexivity|]. repeat split; try discriminate.
    intros s' dt' [= <-] _ Hp'. congruence.
Qed.

Example parse_duedate_samples :
  parse_duedate sample_parse None = Ok None
  /\ parse_duedate sample_parse (Some ""%string) = Ok None
  /\ parse_duedate sample_parse (Some "soon"%string) = Ok None
  /\ parse_duedate sample_parse (Some "2025-01-01 00:00"%string)
     = Ok (Some {| wall := 5; tzinfo := Some 0%Z |})
  /\ parse_duedate sample_parse (Some "2025-01-01T00:00+01:00"%string)
     = Ok (Some {| wall := 5; tzinfo := Some 3600000000%Z |}).
Proof. repeat split. Qed.

(** ** Normalizer *)

(** C5: the Normalizer returns; its blocks ascend by the stack's [order]
    (absent read as 0) and the cards of every block ascend by the card's
    [order] (absent read as 0); the blocks of one key are the entries of
    the raw stacks of that key in their raw order, and within any stack
    the cards of one key are the entries of the raw cards of that key that
    pass the archive filter, in their raw order. *)
Theorem build_grouped_model_sorted_stable :
  forall (parse : string -> result datetime) (stacks : list RawStack.t)
         (include_archived : bool),
    (exists grouped : list Block.t,
       build_grouped_model parse stacks include_archived = Ok grouped /\
       StronglySorted (fun a b => block_order a <= block_order b)%Z grouped /\
       Forall (fun b => StronglySorted (fun x y => card_order x <= card_order y)%Z
                          (Block.cards b)) grouped /\
       forall k : Z,
         Forall2 (fun b s => block_entry parse include_archived s = Ok b)
           (filter (fun b => block_order b =? k)%Z grouped)
           (filter (fun s => stack_key s =? k)%Z stacks)) /\
    (forall s : RawStack.t,
       exists b : Block.t,
         block_entry parse include_archived s = Ok b /\
         StronglySorted (fun x y => card_order x <= card_order y)%Z (Block.cards b) /\
         forall k : Z,
           Forall2 (fun c rc => card_entry parse rc = Ok c)
             (filter (fun c => card_order c =? k)%Z (Block.cards b))
             (filter (fun rc => card_key rc =? k)%Z
                (filter (fun rc => include_archived
                                   || negb (get_default (RawCard.archived rc) false))%bool
                   (get_default (RawStack.cards s) [])))).
Proof.
  intros parse stacks ia. split.
  - exists (map (block_value parse ia) (sorted stacks stack_key)).
    split; [apply build_grouped_model_returns|].
    split; [|split].
    + apply (map_sorted_key (block_value parse ia) (ka := stack_key) block_order);
        [reflexivity | apply sorted_sorted].
    + apply Forall_map, Forall_forall. intros s _. apply block_cards_sorted.
    + intros k.
      rewrite filter_map_key with (q := fun s => (stack_key s =? k)%Z) by reflexivity.
      rewrite sorted_stable.
      apply map_Forall2_entry. apply block_entry_returns.
  - intros s. exists (block_value parse ia s).
    split; [apply block_entry_returns|].
    split; [apply block_cards_sorted|].
    intros k. rewrite block_cards_stable.
    replace (filter (fun rc => ia || negb (get_default (RawCard.archived rc) false))%bool
               (get_default (RawStack.cards s) []))
      with (kept_cards s ia).
    + apply map_Forall2_entry. apply card_entry_returns.
    + unfold kept_cards. destruct ia; cbn [negb orb]; [|reflexivity].
      symmetry. apply forallb_filter_id. now apply forallb_forall.
Qed.


Example sample_board_normalized :
  ids_of (build_grouped_model sample_parse sample_board false)
  = [(Some 2, []); (Some 3, []); (Some 1, [Some 13; Some 10; Some 12]); (Some 4, [])]%Z
  /\ ids_of (build_grouped_model sample_parse sample_board true)
     = [(Some 2, []); (Some 3, []); (Some 1, [Some 11; Some 13; Some 10; Some 12]);
        (Some 4, [])]%Z.
Proof. split; reflexivity. Qed.

(** ** Renderers *)

Lemma returns_ret {A} (a : A) : returns (ret a).
Proof. intros n. now exists a, n. Qed.

Lemma returns_bind {A B} (m : M A) (k : A -> M B) :
  returns m -> (forall a, returns (k a)) -> returns (bind m k).
Proof.
  intros Hm Hk n. destruct (Hm n) as (a & n' & E).
  unfold bind. rewrite E. apply Hk.
Qed.

Lemma returns_forM {A B} (f : A -> M B) (l : list A) :
  Forall (fun x => returns (f x)) l -> returns (forM l f).
Proof.
  induction 1 as [|x l Hx Hl IH]; cbn [forM].
  - apply returns_ret.
  - apply returns_bind; [exact Hx|]. intros y.
    apply returns_bind; [exact IH|]. intros ys. apply returns_ret.
Qed.

Create HintDb render.
#[local] Hint Resolve returns_ret : render.

Section RendererFacts.

Variable isoformat : datetime -> string.
Variable astimezone : datetime -> result datetime.
Variable strftime : datetime -> string.
Variable clock : nat -> Z.

Lemma due_text_returns (c : Card.t) (datefmt : string) :
  (forall dt, Card.duedate c = Some dt -> exists off, tzinfo dt = Some off) ->
  returns (due_text isoformat astimezone strftime clock c datefmt).
Proof.
  intros Haware. unfold due_text.
  destruct (Card.duedate c) as [dt|]; [|apply returns_ret].
  destruct (Haware dt eq_refl) as [off Htz].
  apply returns_bind; [now apply format_duedate_returns with off|].
  intros s. apply returns_ret.
Qed.

Ltac card_returns Haware :=
  cbv zeta; apply returns_bind;
  [ now apply due_text_returns | intros; auto with render ].

Lemma text_meta_returns (show_owner : bool) (datefmt : string) (c : Card.t) :
  (forall dt, Card.duedate c = Some dt -> exists off, tzinfo dt = Some off) ->
  returns (text_meta isoformat astimezone strftime clock show_owner datefmt c).
Proof. intros Haware. unfold text_meta. card_returns Haware. Qed.

Lemma colorize_card_returns (show_owner : bool) (datefmt : string) (c : Card.t) :
  (forall dt, Card.duedate c = Some dt -> exists off, tzinfo dt = Some off) ->
  returns (colorize_card isoformat astimezone strftime clock show_owner datefmt c).
Proof. intros Haware. unfold colorize_card. card_returns Haware. Qed.

Lemma markdown_card_returns (show_owner : bool) (datefmt : string) (c : Card.t) :
  (forall dt, Card.duedate c = Some dt -> exists off, tzinfo dt = Some off) ->
  returns (markdown_card isoformat astimezone strftime clock show_owner datefmt c).
Proof.
  intros Haware. unfold markdown_card. cbv zeta.
  apply returns_bind; [now apply text_meta_returns | intros; apply returns_ret].
Qed.

Lemma plain_card_returns (show_owner : bool) (datefmt : string) (c : Card.t) :
  (forall dt, Card.duedate c = Some dt -> exists off, tzinfo dt = Some off) ->
  returns (plain_card isoformat astimezone strftime clock show_owner datefmt c).
Proof.
  intros Haware. unfold plain_card. cbv zeta.
  apply returns_bind; [now apply text_meta_returns | intros; apply returns_ret].
Qed.

Lemma pango_card_returns (st : Stack.t) (title : string) (show_owner : bool)
      (datefmt : string) (c : Card.t) :
  Stack.title st = Some title ->
  (forall dt, Card.duedate c = Some dt -> exists off, tzinfo dt = Some off) ->
  returns (pango_card isoformat astimezone strftime clock st show_owner datefmt c).
Proof.
  intros Htitle Haware. unfold pango_card. rewrite Htitle. cbv zeta.
  apply returns_bind; [intros n; cbn; eauto|]. intros low.
  apply returns_bind; [now apply due_text_returns | intros; apply returns_ret].
Qed.

(** Without a title the first card of the stack already stops the markup
    formatter. *)
Lemma pango_card_untitled (st : Stack.t) (show_owner : bool) (datefmt : string)
      (c : Card.t) (n : nat) :
  Stack.title st = None ->
  pango_card isoformat astimezone strftime clock st show_owner datefmt c n
  = Raise AttributeError.
Proof. intros Htitle. unfold pango_card, bind, lift. now rewrite Htitle. Qed.

(** The three text formatters return on every model with aware dates. *)
Lemma text_renderers_return (grouped : list Block.t) (show_owner : bool)
      (datefmt : string) :
  aware_dates grouped ->
  returns (plain_output isoformat astimezone strftime clock grouped show_owner datefmt)
  /\ returns (colorize_output isoformat astimezone strftime clock grouped show_owner datefmt)
  /\ returns (markdown_output isoformat astimezone strftime clock grouped show_owner datefmt).
Proof.
  intros Haware. unfold plain_output, colorize_output, markdown_output.
  repeat split.
  all: apply returns_bind; [|intros; apply returns_ret].
  all: apply returns_forM; apply Forall_impl with (2 := Haware); intros b Hb.
  all: unfold plain_block, colorize_block, markdown_block; cbv zeta.
  all: destruct (negb (nonempty (Block.cards b))); [apply returns_ret|].
  all: apply returns_bind; [|intros; apply returns_ret].
  all: apply returns_forM; apply Forall_impl with (2 := Hb); intros c Hc.
  - now apply plain_card_returns.
  - now apply colorize_card_returns.
  - now apply markdown_card_returns.
Qed.

(** The markup formatter returns as well once every stack that holds a
    card has a title. *)
Lemma pango_output_returns (grouped : list Block.t) (show_owner : bool)
      (datefmt : string) :
  aware_dates grouped ->
  Forall (fun b => Block.cards b = [] \/
                   exists title, Stack.title (Block.stack b) = Some title) grouped ->
  returns (pango_output isoformat astimezone strftime clock grouped show_owner datefmt).
Proof.
  intros Haware Htitled. unfold pango_output.
  apply returns_bind; [|intros; apply returns_ret].
  apply returns_forM.
  apply Forall_forall. intros b Hb.
  pose proof (proj1 (Forall_forall _ _) Haware b Hb) as Hdates.
  pose proof (proj1 (Forall_forall _ _) Htitled b Hb) as Ht.
  unfold pango_block. cbv zeta.
  destruct Ht as [Hnil | [title Htitle]].
  - rewrite Hnil. apply returns_ret.
  - destruct (negb (nonempty (Block.cards b))); [apply returns_ret|].
    apply returns_bind; [|intros; apply returns_ret].
    apply returns_forM; apply Forall_impl with (2 := Hdates); intros c Hc.
    now apply pango_card_returns with title.
Qed.

(** It raises as soon as some stack that holds a card has none. *)
Lemma pango_output_raises (grouped : list Block.t) (show_owner : bool)
      (datefmt : string) (n : nat) :
  aware_dates grouped ->
  Exists (fun b => Block.cards b <> [] /\ Stack.title (Block.stack b) = None) grouped ->
  pango_output isoformat astimezone strftime clock grouped show_owner datefmt n
  = Raise AttributeError.
Proof.
  intros Haware Hbad. unfold pango_output, bind.
  enough (H : forM grouped
                (pango_block isoformat astimezone strftime clock show_owner datefmt) n
              = Raise AttributeError) by now rewrite H.
  revert n. induction Hbad as [b rest [Hcards Htitle] | b rest Hbad IH]; intros n.
  - cbn [forM]. unfold bind at 1. unfold pango_block. cbv zeta.
    destruct (Block.cards b) as [|c cs]; [congruence|].
    cbn [nonempty negb forM]. unfold bind at 1 2.
    now rewrite pango_card_untitled.
  - inversion Haware as [|? ? Hb Hrest]; subst.
    cbn [forM]. unfold bind at 1.
    destruct (pango_block isoformat astimezone strftime clock show_owner datefmt b n)
      as [[ls n']|e] eqn:E.
    + unfold bind. now rewrite (IH Hrest n').
    + revert E. unfold pango_block. cbv zeta.
      destruct (Block.cards b) as [|c cs] eqn:Hcs; [discriminate|].
      cbn [nonempty negb].
      destruct (Stack.title (Block.stack b)) as [title|] eqn:Htitle.
      * intros E. exfalso.
        assert (R : returns
                      (ls <- forM (c :: cs)
                               (pango_card isoformat astimezone strftime clock
                                  (Block.stack b) show_owner datefmt) ;;
                       ret (("<b><u>" ++ pango_escape (stack_heading (Block.stack b))
                             ++ "</u></b>")%string :: ls ++ [" "%string]))).
        { apply returns_bind; [|intros; apply returns_ret].
          apply returns_forM. apply Forall_impl with (2 := Hb). intros c' Hc'.
          now apply pango_card_returns with title. }
        destruct (R n) as (a & n' & R'). congruence.
      * cbn [forM]. unfold bind at 1 2.
        rewrite pango_card_untitled by exact Htitle. congruence.
Qed.

End RendererFacts.

(** C4 on a stack that has a card and no title: the Normalizer hands the
    model over with the title absent, three formatters print the stack
    under the heading made from its id, and the markup formatter raises
    [AttributeError] at the card. *)
Theorem pango_output_untitled_stack_raises :
  build_grouped_model sample_parse untitled_raw false = Ok untitled_model
  /\ render pango_output untitled_model = Raise AttributeError
  /\ render plain_output untitled_model
     = Ok (("=== List 7 ===" ++ NL ++ "- task")%string, 0%nat)
  /\ render markdown_output untitled_model
     = Ok (("## List 7" ++ NL ++ "- **task**")%string, 0%nat)
  /\ is_ok (render colorize_output untitled_model) = true.
Proof. repeat split. Qed.

(** The same stack with a title goes through the markup formatter. *)
Example pango_output_titled_stack :
  render pango_output
    [ {| Block.stack := {| Stack.id := Some 7%Z; Stack.title := Some "To Do"%string;
                           Stack.order := None |};
         Block.cards :=
           [Card.mk (Some 1%Z) (Some "a<b"%string) None true None None [] ["x&y"%string]] |};
      {| Block.stack := {| Stack.id := Some 8%Z; Stack.title := None; Stack.order := None |};
         Block.cards := [] |} ]
  = Ok (("<b><u>To Do</u></b>" ++ NL
         ++ "✔️  a&lt;b  <span foreground='#a371f7'>🏷️ x&amp;y</span>"
         ++ "  <span foreground='#6e7781'>📦 archived</span>" ++ NL
         ++ " " ++ NL
         ++ "<b><u>List 8</u></b>" ++ NL
         ++ "<span foreground='#6e7781'>(no cards)</span>")%string, 0%nat).
Proof. reflexivity. Qed.

(** ** Entry point *)

Section MainFacts.

Variable py_int : string -> result Z.
Variable session_get : string -> result Response.t.
Variable dateparser_parse : string -> result datetime.
Variable isoformat : datetime -> string.
Variable astimezone : datetime -> result datetime.
Variable strftime : datetime -> string.
Variable clock : nat -> Z.
Variable json_dumps : Z -> string -> list Block.t -> string.

Local Notation "'run_args'" :=
  (run session_get dateparser_parse isoformat astimezone strftime clock json_dumps).
Local Notation "'run_main'" :=
  (main py_int session_get dateparser_parse isoformat astimezone strftime clock
     json_dumps).

(** A run that names a missing value stops there, with status 2. *)
Lemma run_missing (args : Args.t) (name : string) :
  In name (missing_fields args) ->
  run_args args
  = ([Stderr ("Missing: " ++ join ", " (missing_fields args))%string; PrintHelp], Exit 2).
Proof.
  intros Hin. unfold run.
  destruct (missing_fields args); [destruct Hin | reflexivity].
Qed.

Lemma main_parsed (environ : environment) (cli : Cli.t) (default_board : Z)
      (args : Args.t) :
  py_int (env environ "NEXTCLOUD_BOARD_ID" "0") = Ok default_board ->
  parse_args py_int environ default_board cli = inl args ->
  run_main environ cli = run_args args.
Proof. intros Hd Hp. unfold main. now rewrite Hd, Hp. Qed.

Lemma board_zero_missing (args : Args.t) :
  Args.board_id args = 0%Z -> In "board id"%string (missing_fields args).
Proof.
  intros Hz. unfold missing_fields. rewrite Hz.
  apply in_map_iff. exists ("board id"%string, false). split; [reflexivity|].
  apply filter_In. split; [|reflexivity]. cbn. tauto.
Qed.

End MainFacts.

(** C7: with the base URL, the username, the password and the board id
    all unset, the run writes the four names in that order to the error
    stream, prints the help there, and leaves with status 2 without
    having sent a request. *)
Theorem main_missing_all_four :
  forall py_int session_get dateparser_parse isoformat astimezone strftime clock
         json_dumps (environ : environment) (cli : Cli.t) (default_board : Z)
         (args : Args.t),
    py_int (env environ "NEXTCLOUD_BOARD_ID" "0") = Ok default_board ->
    parse_args py_int environ default_board cli = inl args ->
    Args.url args = ""%string ->
    Args.username args = ""%string ->
    Args.password args = ""%string ->
    Args.board_id args = 0%Z ->
    main py_int session_get dateparser_parse isoformat astimezone strftime clock
      json_dumps environ cli
    = ([Stderr "Missing: base URL, username, app password, board id"; PrintHelp], Exit 2).
Proof.
  intros py_int session_get parse iso astz strf clock dumps environ cli d args
         Hd Hp Hurl Huser Hpass Hboard.
  rewrite (main_parsed py_int session_get parse iso astz strf clock dumps
             environ cli Hd Hp).
  rewrite run_missing with (name := "board id"%string)
    by now apply board_zero_missing.
  unfold missing_fields. now rewrite Hurl, Huser, Hpass, Hboard.
Qed.

(** The run with an empty environment and no option given. *)
Lemma main_missing_all_four_witness :
  Sample.main Sample.environ Sample.no_options
  = ([Stderr "Missing: base URL, username, app password, board id"; PrintHelp], Exit 2).
Proof.
  exact (main_missing_all_four
           Sample.py_int Sample.session_get Sample.dateparser_parse Sample.isoformat
           Sample.astimezone Sample.strftime Sample.clock Sample.json_dumps
           Sample.environ Sample.no_options
           eq_refl eq_refl eq_refl eq_refl eq_refl eq_refl).
Defined.

(** C10: a board id of 0, given on the command line or taken from the
    environment default, counts as missing: the run names "board id" on
    the error stream and leaves with status 2 before any request. *)
Theorem main_board_zero_is_missing :
  forall py_int session_get dateparser_parse isoformat astimezone strftime clock
         json_dumps (environ : environment) (cli : Cli.t) (default_board : Z)
         (args : Args.t),
    py_int (env environ "NEXTCLOUD_BOARD_ID" "0") = Ok default_board ->
    parse_args py_int environ default_board cli = inl args ->
    Args.board_id args = 0%Z ->
    exists missing : list string,
      In "board id"%string missing /\
      main py_int session_get dateparser_parse isoformat astimezone strftime clock
        json_dumps environ cli
      = ([Stderr ("Missing: " ++ join ", " missing)%string; PrintHelp], Exit 2).
Proof.
  intros py_int session_get parse iso astz strf clock dumps environ cli d args
         Hd Hp Hboard.
  exists (missing_fields args).
  pose proof (board_zero_missing args Hboard) as Hin.
  split; [exact Hin|].
  rewrite (main_parsed py_int session_get parse iso astz strf clock dumps
             environ cli Hd Hp).
  now apply run_missing with (name := "board id"%string).
Qed.

(** The run with everything configured and [-b 0]. *)
Lemma main_board_zero_is_missing_witness :
  exists missing : list string,
    In "board id"%string missing /\
    Sample.main Sample.environ board_zero_options
    = ([Stderr ("Missing: " ++ join ", " missing)%string; PrintHelp], Exit 2).
Proof.
  exact (main_board_zero_is_missing
           Sample.py_int Sample.session_get Sample.dateparser_parse Sample.isoformat
           Sample.astimezone Sample.strftime Sample.clock Sample.json_dumps
           Sample.environ board_zero_options eq_refl eq_refl eq_refl).
Defined.

Example main_board_zero_runs :
  Sample.main Sample.environ board_zero_options
  = ([Stderr "Missing: board id"; PrintHelp], Exit 2)
  /\ Sample.main Sample.environ board_unset_options
     = ([Stderr "Missing: board id"; PrintHelp], Exit 2)
  /\ Sample.main (fun name => if (name =? "NEXTCLOUD_BOARD_ID")%string
                              then Some "0"%string else None)
       board_unset_options
     = ([Stderr "Missing: board id"; PrintHelp], Exit 2).
Proof. repeat split. Qed.

(** With a board id other than 0 the same options reach the network. *)
Example main_board_five_fetches :
  Sample.main Sample.environ
    (Cli.mk (Some "https://cloud.example.com/"%string) (Some "alice"%string)
       (Some "secret"%string) (Some "5"%string) false false false false false false None
       false)
  = ([HttpGet "https://cloud.example.com/index.php/apps/deck/api/v1.1/boards/5/stacks";
      Stderr "Error fetching stacks for board 5: unreachable"], Exit 1).
Proof. reflexivity. Qed.

(** ** Markup escaping *)

Lemma append_assoc (a b c : string) : (a ++ (b ++ c) = (a ++ b) ++ c)%string.
Proof. induction a as [|x a IH]; simpl; [reflexivity | now rewrite IH]. Qed.

Lemma replace_app (old : ascii) (new a b : string) :
  replace old new (a ++ b) = (replace old new a ++ replace old new b)%string.
Proof.
  induction a as [|c a IH]; [reflexivity|].
  cbn [replace append]. rewrite IH.
  destruct (Ascii.eqb c old); [apply append_assoc | reflexivity].
Qed.

(** Escaping works character by character. *)
Lemma html_escape_cons (c : ascii) (s : string) :
  html_escape (String c s) true
  = (html_escape (String c EmptyString) true ++ html_escape s true)%string.
Proof.
  unfold html_escape.
  change (String c s) with (String c EmptyString ++ s)%string.
  now rewrite !replace_app.
Qed.



(** What is not escaped is not character data: a bare ["<"] or ["&"] is
    refused, also when only the ampersands have been replaced. *)
Example pango_escape_samples :
  pango_escape "a < b & c"%string = "a &lt; b &amp; c"%string
  /\ pango_escape "&lt;"%string = "&amp;lt;"%string
  /\ markup_text "a &lt; b &amp; c"%string = Some "a < b & c"%string
  /\ markup_text "&amp;lt;"%string = Some "&lt;"%string
  /\ markup_text "a < b"%string = None
  /\ markup_text "R&D"%string = None
  /\ markup_text (replace "&"%char "&amp;" "a < b & c") = None.
Proof. repeat split. Qed.

(** * Further properties *)

(** ** The rest of the relative ladder *)

Lemma opp_div_opp (a b : Z) : (0 < b)%Z -> (- (- a / b))%Z = ceil_div a b.
Proof.
  intros Hb. unfold ceil_div.
  pose proof (Z.div_mod (- a) b) as H1. pose proof (Z.mod_pos_bound (- a) b Hb) as H2.
  pose proof (Z.div_mod (a + b - 1) b) as H3.
  pose proof (Z.mod_pos_bound (a + b - 1) b Hb) as H4.
  nia.
Qed.

(** X1: from a day to 545 years of 365 days ahead the relative style
    counts years of 365 days beyond 365 days, months of 30 days beyond 30
    days and days otherwise, each rounded up. *)
Theorem format_duedate_relative_future_rounds_up :
  forall isoformat astimezone strftime clock (dt : datetime) (off : Z) (n : nat),
    tzinfo dt = Some off ->
    let td := (wall dt - off - clock n)%Z in
    (day_us <= td <= 545 * (365 * day_us))%Z ->
    format_duedate isoformat astimezone strftime clock (Some dt) "relative" n =
    Ok (if (365 * day_us <? td)%Z
        then ("in " ++ str_int (ceil_div td (365 * day_us)) ++ " year(s)")%string
        else if (30 * day_us <? td)%Z
        then ("in " ++ str_int (ceil_div td (30 * day_us)) ++ " month(s)")%string
        else ("in " ++ str_int (ceil_div td day_us) ++ " days")%string,
        S n).
Proof.
  intros iso astz strf clock dt off n Htz td [Hge Hup].
  rewrite (relative_cases iso astz strf clock dt n Htz)
    by (fold td; unfold day_us in *; lia).
  fold td.
  assert (Hday : (0 < day_us)%Z) by (unfold day_us; lia).
  rewrite !opp_div_opp by lia.
  destruct (Z.ltb_spec (Z.abs td) day_us); [lia|].
  destruct (Z.ltb_spec (365 * day_us) td); [reflexivity|].
  destruct (Z.ltb_spec (30 * day_us) td); [reflexivity|].
  destruct (Z.ltb_spec (0 * day_us) td); [reflexivity|lia].
Qed.

(** 366 days ahead already counts as two years. *)
Lemma format_duedate_relative_future_rounds_up_witness :
  Sample.relative (Sample.at_offset (366 * day_us)) = Ok ("in 2 year(s)"%string, 1%nat).
Proof.
  pose proof (format_duedate_relative_future_rounds_up
                Sample.isoformat Sample.astimezone Sample.strftime Sample.clock
                (Sample.at_offset (366 * day_us)) 0%nat eq_refl)
    as H.
  vm_compute in H |- *. apply H. split; intro E; discriminate E.
Defined.

(** Further ahead the doubles stop following the whole-number count: a
    microsecond past 545 years ahead the quotient of the two floats
    rounds to 545 exactly, and that is what is printed. *)
Example relative_545_years_ahead :
  Sample.relative (Sample.at_offset (545 * (365 * day_us) + 1))
  = Ok ("in 545 year(s)"%string, 1%nat)
  /\ ceil_div (545 * (365 * day_us) + 1) (365 * day_us) = 546%Z.
Proof. split; evaluate. Qed.

(** X2: between one day and thirty days back the relative style counts
    the days elapsed, rounded up. *)
Theorem format_duedate_relative_past_days_round_up :
  forall isoformat astimezone strftime clock (dt : datetime) (off : Z) (n : nat),
    tzinfo dt = Some off ->
    let elapsed := (clock n - (wall dt - off))%Z in
    (day_us <= elapsed <= 30 * day_us)%Z ->
    format_duedate isoformat astimezone strftime clock (Some dt) "relative" n =
    Ok ((str_int (ceil_div elapsed day_us) ++ " days ago")%string, S n).
Proof.
  intros iso astz strf clock dt off n Htz elapsed [Hlo Hhi].
  rewrite (relative_cases iso astz strf clock dt n Htz)
    by (subst elapsed; unfold day_us in *; lia).
  cbv zeta.
  replace (wall dt - off - clock n)%Z with (- elapsed)%Z by (subst elapsed; lia).
  assert (Hday : (0 < day_us)%Z) by (unfold day_us; lia).
  destruct (Z.ltb_spec (Z.abs (- elapsed)) day_us); [lia|].
  destruct (Z.ltb_spec (365 * day_us) (- elapsed)); [lia|].
  destruct (Z.ltb_spec (30 * day_us) (- elapsed)); [lia|].
  destruct (Z.ltb_spec (0 * day_us) (- elapsed)); [lia|].
  destruct (Z.ltb_spec (- elapsed) (-365 * day_us)); [lia|].
  destruct (Z.ltb_spec (- elapsed) (-30 * day_us)); [lia|].
  do 4 f_equal.
  rewrite <- (opp_div_opp elapsed Hday).
  apply Z.abs_neq.
  pose proof (Z.div_mod (- elapsed) day_us) as H7.
  pose proof (Z.mod_pos_bound (- elapsed) day_us Hday) as H8.
  nia.
Qed.

(** A day and a half back reads as two days. *)
Lemma format_duedate_relative_past_days_round_up_witness :
  Sample.relative (Sample.at_offset (-36 * hour_us)) = Ok ("2 days ago"%string, 1%nat).
Proof.
  pose proof (format_duedate_relative_past_days_round_up
                Sample.isoformat Sample.astimezone Sample.strftime Sample.clock
                (Sample.at_offset (-36 * hour_us)) 0%nat eq_refl)
    as H.
  vm_compute in H |- *. apply H. split; intro E; discriminate E.
Defined.

(** X3: the Date Formatter raises only for a date without an offset in
    the relative style, and then [TypeError]; an absent date gives the
    empty text without a look at the clock. *)
Theorem format_duedate_raises_only_naive_relative :
  forall isoformat astimezone strftime clock (dt : option datetime) (style : string)
         (n : nat),
    ((exists e, format_duedate isoformat astimezone strftime clock dt style n = Raise e)
     <-> (style = "relative"%string /\ exists d, dt = Some d /\ tzinfo d = None))
    /\ (forall e,
          format_duedate isoformat astimezone strftime clock dt style n = Raise e ->
          e = TypeError)
    /\ (dt = None ->
        format_duedate isoformat astimezone strftime clock dt style n
        = Ok (""%string, n)).
Proof.
  intros iso astz strf clock dt style n.
  assert (Hcases :
            (exists s n', format_duedate iso astz strf clock dt style n = Ok (s, n')
                          /\ (dt = None -> s = ""%string /\ n' = n)
                          /\ ~ (style = "relative"%string
                                /\ exists d, dt = Some d /\ tzinfo d = None))
            \/ (format_duedate iso astz strf clock dt style n = Raise TypeError
                /\ style = "relative"%string
                /\ exists d, dt = Some d /\ tzinfo d = None)).
  { destruct dt as [d|].
    2:{ left. exists ""%string, n. split; [reflexivity|]. split; [auto|].
        intros [_ (d & Hd & _)]; discriminate. }
    destruct (tzinfo d) as [off|] eqn:Htz.
    - destruct (format_duedate_returns iso astz strf clock d style Htz n)
        as (s & n' & E).
      left. exists s, n'. split; [exact E|]. split; [discriminate|].
      intros [_ (d' & [= <-] & Hd')]. congruence.
    - destruct (String.eqb_spec style "relative") as [->|Hne].
      + right. split; [|split; [reflexivity | eauto]].
        cbv beta iota zeta delta [format_duedate bind datetime_now_utc lift
          sub_datetime ret tzinfo wall String.eqb Ascii.eqb Bool.eqb utc].
        destruct d as [w tz]; simpl in Htz; subst tz. reflexivity.
      + left. apply String.eqb_neq in Hne.
        assert (E : exists s, format_duedate iso astz strf clock (Some d) style n
                              = Ok (s, S n)).
        { unfold format_duedate, bind, datetime_now_utc, ret. rewrite Hne.
          destruct (style =? "iso")%string; [eauto|].
          destruct (style =? "local")%string; [|eauto].
          destruct (astz d); eauto. }
        destruct E as [s E]. exists s, (S n). split; [exact E|].
        split; [discriminate|]. intros [Hs _]. apply String.eqb_neq in Hne.
        congruence. }
  destruct Hcases as [(s & n' & E & Hnone & Hnot) | (E & Hs & Hd)]; rewrite E.
  - split; [split|split].
    + intros [e He]; discriminate.
    + intros H. now destruct (Hnot H).
    + intros e He; discriminate.
    + intros Hdt. destruct (Hnone Hdt) as [-> ->]. reflexivity.
  - split; [split|split].
    + intros _. split; assumption.
    + intros _. eauto.
    + intros e [= <-]. reflexivity.
    + intros Hdt. destruct Hd as (d & Hd & _). congruence.
Qed.

(** ** More on the Normalizer *)

Section MoreSortedFacts.

Context {A : Type}.
Variable key : A -> Z.

Lemma insert_by_head (x : A) (l : list A) :
  Forall (key_le key x) l -> insert_by key x l = x :: l.
Proof.
  destruct 1 as [|y l Hy Hl]; [reflexivity|].
  cbn [insert_by]. unfold key_le in Hy.
  destruct (Z.ltb_spec (key y) (key x)); [lia | reflexivity].
Qed.

(** A list already in order is left as it is. *)
Lemma sorted_ordered (l : list A) :
  StronglySorted (key_le key) l -> sorted l key = l.
Proof.
  induction 1 as [|x l Hs IH Hx]; [reflexivity|].
  cbn [sorted]. rewrite IH. now apply insert_by_head.
Qed.

(** Filtering and sorting can be done in either order. *)
Lemma insert_by_filter (p : A -> bool) (x : A) (l : list A) :
  StronglySorted (key_le key) l ->
  filter p (insert_by key x l)
  = if p x then insert_by key x (filter p l) else filter p l.
Proof.
  induction 1 as [|y l Hs IH Hy]; cbn [insert_by filter].
  - destruct (p x); reflexivity.
  - destruct (Z.ltb_spec (key y) (key x)) as [Hlt|Hge]; cbn [filter].
    + rewrite IH. destruct (p y), (p x); try reflexivity.
      cbn [insert_by]. destruct (Z.ltb_spec (key y) (key x)); [reflexivity | lia].
    + destruct (p x); [|reflexivity].
      destruct (p y).
      * cbn [insert_by].
        destruct (Z.ltb_spec (key y) (key x)); [lia | reflexivity].
      * symmetry. apply insert_by_head.
        apply Forall_forall. intros z Hz. apply filter_In in Hz.
        pose proof (proj1 (Forall_forall _ _) Hy z (proj1 Hz)) as Hyz.
        unfold key_le in *. lia.
Qed.

Lemma sorted_filter (p : A -> bool) (l : list A) :
  filter p (sorted l key) = sorted (filter p l) key.
Proof.
  induction l as [|x l IH]; [reflexivity|].
  cbn [sorted filter].
  rewrite insert_by_filter by apply sorted_sorted.
  rewrite IH. destruct (p x); reflexivity.
Qed.

End MoreSortedFacts.

Section MoreNormalizerFacts.

Variable parse : string -> result datetime.

Lemma kept_cards_keeps (s : RawStack.t) (include_archived : bool) :
  kept_cards s include_archived
  = filter (keeps include_archived) (get_default (RawStack.cards s) []).
Proof.
  unfold kept_cards, keeps. destruct include_archived; cbn [negb orb]; [|reflexivity].
  symmetry. apply forallb_filter_id. now apply forallb_forall.
Qed.

Lemma card_value_owner (c : RawCard.t) :
  Card.owner (card_value parse c) <> Some ""%string.
Proof.
  unfold card_value, card_entry. rewrite parse_duedate_returns. cbn.
  destruct (fmt_user (RawCard.owner c)); cbn; congruence.
Qed.

Lemma card_value_assignees (c : RawCard.t) :
  ~ In ""%string (Card.assignees (card_value parse c)).
Proof.
  unfold card_value, card_entry. rewrite parse_duedate_returns. cbn.
  intros Hin. apply in_map_iff in Hin. destruct Hin as (u & Hu & Hin).
  apply filter_In in Hin. destruct Hin as [_ Ht]. now rewrite Hu in Ht.
Qed.

Lemma card_value_labels (c : RawCard.t) :
  ~ In ""%string (Card.labels (card_value parse c)).
Proof.
  unfold card_value, card_entry. rewrite parse_duedate_returns. cbn.
  intros Hin. apply in_map_iff in Hin. destruct Hin as (lb & Hlb & Hin).
  apply filter_In in Hin. destruct Hin as [_ Ht].
  destruct (RawLabel.title lb) as [t|]; cbn in *; [|discriminate].
  now subst t.
Qed.

Lemma card_value_copies (c : RawCard.t) :
  Card.id (card_value parse c) = RawCard.id c
  /\ Card.title (card_value parse c) = RawCard.title c
  /\ Card.order (card_value parse c) = RawCard.order c.
Proof.
  unfold card_value, card_entry. rewrite parse_duedate_returns. cbn. auto.
Qed.

End MoreNormalizerFacts.

(** X4: in the model the Normalizer builds, no owner, assignee or label
    is the empty string: a user without a usable name and a label
    without a title are left out. *)
Theorem build_grouped_model_names_not_empty :
  forall (parse : string -> result datetime) (stacks : list RawStack.t)
         (include_archived : bool),
  exists grouped : list Block.t,
    build_grouped_model parse stacks include_archived = Ok grouped /\
    Forall (fun b =>
              Forall (fun c => Card.owner c <> Some ""%string
                               /\ ~ In ""%string (Card.assignees c)
                               /\ ~ In ""%string (Card.labels c))
                (Block.cards b))
      grouped.
Proof.
  intros parse stacks ia. eexists. split; [apply build_grouped_model_returns|].
  apply Forall_map, Forall_forall. intros s _.
  cbn [block_value Block.cards].
  apply Forall_map, Forall_forall. intros rc _.
  split; [apply card_value_owner|].
  split; [apply card_value_assignees | apply card_value_labels].
Qed.

(** X5: the Normalizer neither loses nor invents: its blocks are the
    entries of the raw stacks in some arrangement, one block per stack,
    each with the stack's id, title and order as they came; the cards of
    a block are the entries of the raw cards that pass the archive
    filter, in some arrangement, each with the card's id, title and
    order as they came. *)
Theorem build_grouped_model_keeps_everything :
  forall (parse : string -> result datetime) (stacks : list RawStack.t)
         (include_archived : bool),
    (exists (grouped : list Block.t) (arranged : list RawStack.t),
       build_grouped_model parse stacks include_archived = Ok grouped /\
       Permutation arranged stacks /\
       Forall2 (fun b s => block_entry parse include_archived s = Ok b) grouped arranged) /\
    (forall s : RawStack.t,
       exists (b : Block.t) (arranged : list RawCard.t),
         block_entry parse include_archived s = Ok b /\
         Stack.id (Block.stack b) = RawStack.id s /\
         Stack.title (Block.stack b) = RawStack.title s /\
         Stack.order (Block.stack b) = RawStack.order s /\
         Permutation arranged
           (filter (keeps include_archived) (get_default (RawStack.cards s) [])) /\
         Forall2 (fun c rc => card_entry parse rc = Ok c
                              /\ Card.id c = RawCard.id rc
                              /\ Card.title c = RawCard.title rc
                              /\ Card.order c = RawCard.order rc)
           (Block.cards b) arranged).
Proof.
  intros parse stacks ia. split.
  - exists (map (block_value parse ia) (sorted stacks stack_key)),
           (sorted stacks stack_key).
    split; [apply build_grouped_model_returns|].
    split; [apply sorted_perm|].
    apply map_Forall2_entry. apply block_entry_returns.
  - intros s.
    exists (block_value parse ia s), (sorted (kept_cards s ia) card_key).
    split; [apply block_entry_returns|].
    do 3 (split; [reflexivity|]).
    split; [rewrite <- kept_cards_keeps; apply sorted_perm|].
    cbn [block_value Block.cards].
    induction (sorted (kept_cards s ia) card_key) as [|rc l IH]; cbn [map];
      constructor; [|exact IH].
    split; [apply card_entry_returns | apply card_value_copies].
Qed.

(** X6: the model without archived cards is the model with them, stack
    by stack, minus the cards flagged archived. *)
Theorem build_grouped_model_archive_filter_commutes :
  forall (parse : string -> result datetime) (stacks : list RawStack.t),
  exists (full : list Block.t),
    build_grouped_model parse stacks true = Ok full /\
    build_grouped_model parse stacks false = Ok (map drop_archived full).
Proof.
  intros parse stacks. eexists. split; [apply build_grouped_model_returns|].
  rewrite build_grouped_model_returns. f_equal.
  rewrite map_map. apply map_ext. intros s.
  unfold drop_archived, block_value. cbn [Block.stack Block.cards]. f_equal.
  rewrite filter_map_key
    with (q := fun rc => negb (get_default (RawCard.archived rc) false))
    by (intros rc; now rewrite card_value_archived).
  rewrite sorted_filter. reflexivity.
Qed.

(** X7: a board whose stacks already ascend by order comes out in the
    order it came in. *)
Theorem build_grouped_model_keeps_ordered_board :
  forall (parse : string -> result datetime) (stacks : list RawStack.t)
         (include_archived : bool),
    StronglySorted (fun a b => stack_key a <= stack_key b)%Z stacks ->
    exists grouped : list Block.t,
      build_grouped_model parse stacks include_archived = Ok grouped /\
      Forall2 (fun b s => block_entry parse include_archived s = Ok b) grouped stacks.
Proof.
  intros parse stacks ia Hsorted. eexists.
  split; [apply build_grouped_model_returns|].
  rewrite sorted_ordered by exact Hsorted.
  apply map_Forall2_entry. apply block_entry_returns.
Qed.

Lemma build_grouped_model_keeps_ordered_board_witness :
  exists grouped : list Block.t,
    build_grouped_model sample_parse ordered_board false = Ok grouped /\
    Forall2 (fun b s => block_entry sample_parse false s = Ok b) grouped ordered_board.
Proof.
  apply (@build_grouped_model_keeps_ordered_board sample_parse ordered_board false).
  repeat constructor; cbv; discriminate.
Defined.

(** ** The formatters on what the Normalizer builds *)

Section MoreRendererFacts.

Variable parse : string -> result datetime.
Variable isoformat : datetime -> string.
Variable astimezone : datetime -> result datetime.
Variable strftime : datetime -> string.
Variable clock : nat -> Z.

Lemma duedate_value_aware (raw : option string) (dt : datetime) :
  duedate_value parse raw = Some dt -> exists off, tzinfo dt = Some off.
Proof.
  unfold duedate_value, parse_duedate.
  destruct raw as [s|]; [|discriminate].
  destruct (truthy s); cbn; [|discriminate].
  destruct (parse s) as [d|e]; cbn; [|discriminate].
  intros [= <-]. destruct (tzinfo d) eqn:Htz; cbn; eauto.
Qed.

Lemma card_value_duedate (c : RawCard.t) :
  Card.duedate (card_value parse c) = duedate_value parse (RawCard.duedate c).
Proof.
  unfold card_value, card_entry. now rewrite parse_duedate_returns.
Qed.

Lemma normalized_aware (include_archived : bool) (l : list RawStack.t) :
  aware_dates (map (block_value parse include_archived) l).
Proof.
  apply Forall_map, Forall_forall. intros s _.
  cbn [block_value Block.cards].
  apply Forall_map, Forall_forall. intros rc _ dt.
  rewrite card_value_duedate. apply duedate_value_aware.
Qed.

Lemma block_value_no_cards (include_archived : bool) (s : RawStack.t) :
  Block.cards (block_value parse include_archived s) = [] <->
  filter (keeps include_archived) (get_default (RawStack.cards s) []) = [].
Proof.
  cbn [block_value Block.cards]. rewrite <- kept_cards_keeps.
  split; intros H.
  - apply map_eq_nil in H.
    apply Permutation_nil. rewrite <- H. apply sorted_perm.
  - rewrite H. reflexivity.
Qed.

(** Congruences of the card loop. *)
Lemma forM_ext {A B} (f g : A -> M B) (l : list A) :
  (forall x n, f x n = g x n) -> forall n, forM l f n = forM l g n.
Proof.
  intros Hfg. induction l as [|x l IH]; intros n; cbn [forM]; [reflexivity|].
  unfold bind at 1 3. rewrite Hfg. destruct (g x n) as [[y n']|e]; [|reflexivity].
  unfold bind. now rewrite IH.
Qed.

Lemma forM_map {A B C} (h : A -> B) (f : B -> M C) (l : list A) :
  forall n, forM (map h l) f n = forM l (fun x => f (h x)) n.
Proof.
  induction l as [|x l IH]; intros n; cbn [forM map]; [reflexivity|].
  unfold bind at 1 3. destruct (f (h x) n) as [[y n']|e]; [|reflexivity].
  unfold bind. now rewrite IH.
Qed.

End MoreRendererFacts.

(** X8: whatever the raw board, the archive flag, the owner switch and
    the date style, the plain, the colored and the markdown formatter
    return a text on the model the Normalizer builds from it. *)
Theorem text_renderers_return_on_normalized :
  forall parse isoformat astimezone strftime clock (stacks : list RawStack.t)
         (include_archived show_owner : bool) (datefmt : string),
  exists grouped : list Block.t,
    build_grouped_model parse stacks include_archived = Ok grouped /\
    (forall n, exists text n',
        plain_output isoformat astimezone strftime clock grouped show_owner datefmt n
        = Ok (text, n')) /\
    (forall n, exists text n',
        colorize_output isoformat astimezone strftime clock grouped show_owner datefmt n
        = Ok (text, n')) /\
    (forall n, exists text n',
        markdown_output isoformat astimezone strftime clock grouped show_owner datefmt n
        = Ok (text, n')).
Proof.
  intros parse iso astz strf clock stacks ia show df.
  eexists. split; [apply build_grouped_model_returns|].
  apply text_renderers_return. apply normalized_aware.
Qed.

(** X9: on the model the Normalizer builds, the markup formatter raises
    [AttributeError] when some raw stack has no title and a card that
    passes the archive filter, and returns a text when there is no such
    stack. *)
Theorem pango_output_on_normalized :
  forall parse isoformat astimezone strftime clock (stacks : list RawStack.t)
         (include_archived show_owner : bool) (datefmt : string),
  exists grouped : list Block.t,
    build_grouped_model parse stacks include_archived = Ok grouped /\
    (Exists (fun s => RawStack.title s = None /\
                      filter (keeps include_archived)
                        (get_default (RawStack.cards s) []) <> [])
       stacks ->
     forall n,
       pango_output isoformat astimezone strftime clock grouped show_owner datefmt n
       = Raise AttributeError) /\
    (Forall (fun s => (exists title, RawStack.title s = Some title) \/
                      filter (keeps include_archived)
                        (get_default (RawStack.cards s) []) = [])
       stacks ->
     forall n, exists text n',
       pango_output isoformat astimezone strftime clock grouped show_owner datefmt n
       = Ok (text, n')).
Proof.
  intros parse iso astz strf clock stacks ia show df.
  eexists. split; [apply build_grouped_model_returns|]. split.
  - intros Hbad n. apply pango_output_raises; [apply normalized_aware|].
    apply Exists_exists in Hbad. destruct Hbad as (s & Hs & Htitle & Hcards).
    apply Exists_exists. exists (block_value parse ia s). split.
    + apply in_map. now apply sorted_In.
    + split; [|exact Htitle].
      intros Hnil. apply Hcards. now apply (block_value_no_cards parse).
  - intros Hgood. apply pango_output_returns; [apply normalized_aware|].
    apply Forall_map, Forall_forall. intros s Hs.
    apply sorted_In in Hs.
    destruct (proj1 (Forall_forall _ _) Hgood s Hs) as [[title Ht] | Hnil].
    + right. exists title. exact Ht.
    + left. now apply (block_value_no_cards parse).
Qed.

(** X10: with the owner switch off, none of the four formatters looks at
    the owner of a card. *)
Theorem renderers_hide_owner :
  forall isoformat astimezone strftime clock (grouped : list Block.t)
         (datefmt : string) (n : nat),
    plain_output isoformat astimezone strftime clock
      (map without_owners grouped) false datefmt n
    = plain_output isoformat astimezone strftime clock grouped false datefmt n
    /\ colorize_output isoformat astimezone strftime clock
         (map without_owners grouped) false datefmt n
       = colorize_output isoformat astimezone strftime clock grouped false datefmt n
    /\ markdown_output isoformat astimezone strftime clock
         (map without_owners grouped) false datefmt n
       = markdown_output isoformat astimezone strftime clock grouped false datefmt n
    /\ pango_output isoformat astimezone strftime clock
         (map without_owners grouped) false datefmt n
       = pango_output isoformat astimezone strftime clock grouped false datefmt n.
Proof.
  intros iso astz strf clock grouped df n.
  unfold plain_output, colorize_output, markdown_output, pango_output, bind.
  repeat split.
  all: rewrite forM_map.
  all: match goal with
       | |- match forM _ ?f _ with _ => _ end = match forM _ ?g _ with _ => _ end =>
           rewrite (forM_ext f g); [reflexivity|]
       end.
  all: intros b m.
  all: unfold plain_block, colorize_block, markdown_block, pango_block, bind;
       cbn [without_owners Block.stack Block.cards].
  all: destruct (Block.cards b) as [|c cs]; [reflexivity|].
  all: cbn [map nonempty negb].
  all: change (without_owner c :: map without_owner cs)
         with (map without_owner (c :: cs)); rewrite forM_map.
  all: match goal with
       | |- match forM _ ?f _ with _ => _ end = match forM _ ?g _ with _ => _ end =>
           rewrite (forM_ext f g); [reflexivity|]
       end.
  all: intros c' m'; reflexivity.
Qed.

(** ** More on markup escaping *)

Lemma list_ascii_app (a b : string) :
  list_ascii_of_string (a ++ b) = list_ascii_of_string a ++ list_ascii_of_string b.
Proof. induction a as [|c a IH]; cbn; [reflexivity | now rewrite IH]. Qed.

Lemma html_escape_app (a b : string) :
  html_escape (a ++ b) true = (html_escape a true ++ html_escape b true)%string.
Proof. unfold html_escape. now rewrite !replace_app. Qed.

Lemma escaped_char_clean (c : ascii) :
  forallb (fun x => negb (is_markup_char x))
    (list_ascii_of_string (html_escape (String c EmptyString) true)) = true.
Proof. destruct c as [[] [] [] [] [] [] [] []]; reflexivity. Qed.

(** X11: an escaped text holds no angle bracket and no quote, whatever
    the text was. *)
Theorem pango_escape_leaves_no_markup_char :
  forall text : string,
    forallb (fun c => negb (is_markup_char c))
      (list_ascii_of_string (pango_escape text)) = true.
Proof.
  unfold pango_escape. induction text as [|x text IH]; [reflexivity|].
  rewrite html_escape_cons, list_ascii_app, forallb_app, IH, escaped_char_clean.
  reflexivity.
Qed.

(** X12: escaping a comma-separated list is the same as escaping its
    items and joining them with the same separator, so a label or an
    assignee is escaped as it would be on its own. *)
Theorem pango_escape_join :
  forall items : list string,
    pango_escape (join ", " items) = join ", " (map pango_escape items).
Proof.
  unfold pango_escape.
  induction items as [|x rest IH]; [reflexivity|].
  destruct rest as [|y rest]; [reflexivity|].
  change (join ", " (x :: y :: rest)) with (x ++ ", " ++ join ", " (y :: rest))%string.
  rewrite !html_escape_app, IH. reflexivity.
Qed.

(** ** Fetcher *)

Lemma string_of_list_app (a b : list ascii) :
  string_of_list_ascii (a ++ b)
  = (string_of_list_ascii a ++ string_of_list_ascii b)%string.
Proof. induction a as [|c a IH]; cbn; [reflexivity | now rewrite IH]. Qed.

Lemma rev_string_app (a b : string) :
  rev_string (a ++ b) = (rev_string b ++ rev_string a)%string.
Proof.
  unfold rev_string. now rewrite list_ascii_app, rev_app_distr, string_of_list_app.
Qed.

Lemma rev_string_involutive (s : string) : rev_string (rev_string s) = s.
Proof.
  unfold rev_string.
  now rewrite list_ascii_of_string_of_list_ascii, rev_involutive,
    string_of_list_ascii_of_string.
Qed.

(** [lstrip] splits a text into the characters it drops and a rest that
    does not start with one of them. *)
Lemma lstrip_split (p : ascii -> bool) (s : string) :
  exists dropped : string,
    s = (dropped ++ lstrip p s)%string /\
    forallb p (list_ascii_of_string dropped) = true.
Proof.
  induction s as [|c s (d & Hd & Hp)].
  - now exists EmptyString.
  - cbn [lstrip]. destruct (p c) eqn:Hc.
    + exists (String c d). cbn. rewrite Hc, Hp. split; [now rewrite <- Hd | reflexivity].
    + now exists EmptyString.
Qed.

Lemma lstrip_head (p : ascii -> bool) (s : string) (c : ascii) (rest : string) :
  lstrip p s = String c rest -> p c = false.
Proof.
  induction s as [|x s IH]; [discriminate|].
  cbn [lstrip]. destruct (p x) eqn:Hx; [exact IH|].
  intros [= <- _]. exact Hx.
Qed.

Lemma rstrip_split (p : ascii -> bool) (s : string) :
  exists dropped : string,
    s = (rstrip p s ++ dropped)%string /\
    forallb p (list_ascii_of_string dropped) = true.
Proof.
  destruct (lstrip_split p (rev_string s)) as (d & Hd & Hp).
  exists (rev_string d). split.
  - unfold rstrip. rewrite <- rev_string_app, <- Hd. symmetry.
    apply rev_string_involutive.
  - unfold rev_string. rewrite list_ascii_of_string_of_list_ascii.
    apply forallb_forall. intros x Hx. apply in_rev in Hx.
    now apply (proj1 (forallb_forall _ _) Hp).
Qed.

Lemma rstrip_last (p : ascii -> bool) (s r : string) (c : ascii) :
  rstrip p s = (r ++ String c EmptyString)%string -> p c = false.
Proof.
  unfold rstrip. intros H.
  apply (f_equal rev_string) in H.
  rewrite rev_string_involutive, rev_string_app in H.
  now apply lstrip_head in H.
Qed.

Lemma rstrip_snoc (p : ascii -> bool) (s : string) (c : ascii) :
  p c = true -> rstrip p (s ++ String c EmptyString) = rstrip p s.
Proof.
  intros Hc. unfold rstrip. rewrite rev_string_app.
  change (rev_string (String c EmptyString)) with (String c EmptyString).
  cbn [append lstrip]. now rewrite Hc.
Qed.

(** X13: the request address is the base address without the slashes at
    its end, followed by the API path of the board: the root is the base
    up to a run of slashes, does not end in a slash itself, and one more
    slash at the end of the base changes nothing. *)
Theorem stacks_url_ignores_trailing_slashes :
  forall (base : string) (board_id : Z),
    stacks_url (base ++ "/") board_id = stacks_url base board_id /\
    exists root slashes : string,
      base = (root ++ slashes)%string /\
      forallb is_slash (list_ascii_of_string slashes) = true /\
      (forall r : string, root <> (r ++ "/")%string) /\
      stacks_url base board_id
      = (root ++ "/index.php/apps/deck/api/v1.1/boards/" ++ str_int board_id
         ++ "/stacks")%string.
Proof.
  intros base board_id. split.
  - unfold stacks_url. now rewrite (rstrip_snoc is_slash base "/"%char eq_refl).
  - destruct (rstrip_split is_slash base) as (d & Hd & Hp).
    exists (rstrip is_slash base), d.
    split; [exact Hd|]. split; [exact Hp|]. split.
    + intros r Hr. apply rstrip_last in Hr. discriminate.
    + unfold stacks_url, API_BASE_SUFFIX.
      reflexivity.
Qed.

Example stacks_url_samples :
  stacks_url "https://cloud.example.com//" 12
  = "https://cloud.example.com/index.php/apps/deck/api/v1.1/boards/12/stacks"%string
  /\ stacks_url "" 0 = "/index.php/apps/deck/api/v1.1/boards/0/stacks"%string
  /\ stacks_url "https://h/nc" (-3)
     = "https://h/nc/index.php/apps/deck/api/v1.1/boards/-3/stacks"%string.
Proof. repeat split. Qed.

(** ** More on the entry point *)

Lemma truthy_not_empty (s : string) : truthy s = true <-> s <> ""%string.
Proof. destruct s; cbn; split; congruence. Qed.

Lemma missing_fields_none (args : Args.t) :
  missing_fields args = [] <->
  (Args.url args <> ""%string /\ Args.username args <> ""%string
   /\ Args.password args <> ""%string /\ Args.board_id args <> 0%Z).
Proof.
  unfold missing_fields. rewrite <- !truthy_not_empty, <- Z.eqb_neq.
  destruct (truthy (Args.url args)), (truthy (Args.username args)),
    (truthy (Args.password args)), (Args.board_id args =? 0)%Z; cbn;
    split; try discriminate; try tauto; intuition discriminate.
Qed.

Lemma env_unset_empty (environ : environment) (name default : string) :
  env (unset_empty environ) name default = env environ name default.
Proof.
  unfold env, unset_empty. destruct (environ name) as [v|]; [|reflexivity].
  destruct (truthy v) eqn:Hv; [now rewrite Hv | reflexivity].
Qed.

Section MoreMainFacts.

Variable py_int : string -> result Z.
Variable session_get : string -> result Response.t.
Variable dateparser_parse : string -> result datetime.
Variable isoformat : datetime -> string.
Variable astimezone : datetime -> result datetime.
Variable strftime : datetime -> string.
Variable clock : nat -> Z.
Variable json_dumps : Z -> string -> list Block.t -> string.

Local Notation "'run_args'" :=
  (run session_get dateparser_parse isoformat astimezone strftime clock json_dumps).

Ltac run_cases args :=
  unfold run, print_rendered;
  destruct (missing_fields args) as [|m ms] eqn:Hmissing; cbn [nonempty];
  [ destruct (fetch_stacks session_get (Args.url args) (Args.board_id args))
      as [stacks|[]] eqn:Hfetch;
    [ destruct (build_grouped_model dateparser_parse stacks (Args.include_archived args))
        as [grouped|e] eqn:Hbuild;
      [ destruct (Args.json args) eqn:Hjson;
        [ | destruct (Args.markdown args) eqn:Hmd;
            [ | destruct (Args.pango args) eqn:Hpango;
                [ | destruct (Args.color args) eqn:Hcolor ] ] ];
        repeat match goal with
          | |- context [match ?r 0%nat with _ => _ end] =>
              destruct (r 0%nat) as [[? ?]|?] eqn:?
          end
      | ]
    | .. ]
  | ].

(** The shapes a run can take. *)
Lemma run_shapes (args : Args.t) :
  let request := HttpGet (stacks_url (Args.url args) (Args.board_id args)) in
  (missing_fields args = [] /\
   ((exists text, run_args args = ([request; Stdout text], Exit 0))
    \/ (exists e, run_args args = ([request], Uncaught e))
    \/ (exists text, run_args args = ([request; Stderr text], Exit 1))))
  \/ (missing_fields args <> [] /\
      run_args args
      = ([Stderr ("Missing: " ++ join ", " (missing_fields args))%string; PrintHelp],
         Exit 2)).
Proof.
  cbv zeta. run_cases args; cbn [app].
  all: try (left; split; [reflexivity|]).
  all: try (left; eexists; reflexivity).
  all: try (right; left; eexists; reflexivity).
  all: try (right; right; eexists; reflexivity).
  right. split; [discriminate | reflexivity].
Qed.

Lemma main_shapes (environ : environment) (cli : Cli.t) :
  let r := main py_int session_get dateparser_parse isoformat astimezone strftime
             clock json_dumps environ cli in
  (exists url text, r = ([HttpGet url; Stdout text], Exit 0))
  \/ (exists url e, r = ([HttpGet url], Uncaught e))
  \/ (exists url text, r = ([HttpGet url; Stderr text], Exit 1))
  \/ (exists text, r = ([Stderr text; PrintHelp], Exit 2))
  \/ (exists name, r = ([UsageError name], Exit 2))
  \/ (exists e, r = ([], Uncaught e))
  \/ r = ([HelpOnStdout], Exit 0).
Proof.
  cbv zeta. unfold main.
  destruct (py_int (env environ "NEXTCLOUD_BOARD_ID" "0")) as [d|e].
  2:{ do 5 right. left. eauto. }
  destruct (parse_args py_int environ d cli) as [args|[|name]].
  2:{ do 6 right. reflexivity. }
  2:{ do 4 right. left. eauto. }
  destruct (run_shapes args)
    as [[_ [[t E] | [[e E] | [t E]]]] | [_ E]]; rewrite E.
  - left. eauto.
  - right. left. eauto.
  - right. right. left. eauto.
  - do 3 right. left. eauto.
Qed.

End MoreMainFacts.

(** X14: a run sends its request exactly when the base address, the
    username and the password are not empty and the board id is not 0;
    the request is then the first thing it does and goes to the address
    of that board. *)
Theorem main_requests_iff_configured :
  forall py_int session_get dateparser_parse isoformat astimezone strftime clock
         json_dumps (environ : environment) (cli : Cli.t) (default_board : Z)
         (args : Args.t),
    py_int (env environ "NEXTCLOUD_BOARD_ID" "0") = Ok default_board ->
    parse_args py_int environ default_board cli = inl args ->
    let trace :=
      fst (main py_int session_get dateparser_parse isoformat astimezone strftime
             clock json_dumps environ cli) in
    ((exists url, In (HttpGet url) trace) <->
     (Args.url args <> ""%string /\ Args.username args <> ""%string
      /\ Args.password args <> ""%string /\ Args.board_id args <> 0%Z))
    /\ (forall url, In (HttpGet url) trace ->
        url = stacks_url (Args.url args) (Args.board_id args)
        /\ exists rest, trace = HttpGet url :: rest).
Proof.
  intros py_int session_get parse iso astz strf clock dumps environ cli d args
         Hd Hp trace.
  subst trace.
  rewrite (main_parsed py_int session_get parse iso astz strf clock dumps
             environ cli Hd Hp).
  rewrite <- missing_fields_none.
  destruct (run_shapes session_get parse iso astz strf clock dumps args)
    as [[Hnone [[t E] | [[e E] | [t E]]]] | [Hsome E]]; rewrite E; cbn [fst].
  1-3: split; [split; [auto | intros _; eexists; left; reflexivity]|].
  1-3: intros url [[= <-] | Hin]; [split; [reflexivity | eauto]|].
  1-3: exfalso; cbn in Hin; intuition discriminate.
  split.
  - split; [|intros H; now destruct (Hsome H)].
    intros [url Hin]. exfalso. cbn in Hin. intuition discriminate.
  - intros url Hin. exfalso. cbn in Hin. intuition discriminate.
Qed.

Lemma main_requests_iff_configured_witness :
  let trace := fst (Sample.main Sample.environ board_five_options) in
  ((exists url, In (HttpGet url) trace) <->
   ("https://cloud.example.com/"%string <> ""%string /\ "alice"%string <> ""%string
    /\ "secret"%string <> ""%string /\ 5%Z <> 0%Z))
  /\ (forall url, In (HttpGet url) trace ->
      url = stacks_url "https://cloud.example.com/" 5
      /\ exists rest, trace = HttpGet url :: rest).
Proof.
  exact (main_requests_iff_configured
           Sample.py_int Sample.session_get Sample.dateparser_parse Sample.isoformat
           Sample.astimezone Sample.strftime Sample.clock Sample.json_dumps
           Sample.environ board_five_options eq_refl eq_refl).
Defined.

(** X15: a run that leaves with status 0 has either printed the help it
    was asked for and nothing else, or sent one request and printed one
    text, in that order, and nothing else; any other ending prints
    nothing on the output stream; no run sends a second request, and the
    only statuses are 0, 1 and 2.  The help is what a run ends with when
    it is asked for and the default of the board id is a number. *)
Theorem main_prints_iff_status_0 :
  forall py_int session_get dateparser_parse isoformat astimezone strftime clock
         json_dumps (environ : environment) (cli : Cli.t),
    let r := main py_int session_get dateparser_parse isoformat astimezone strftime
               clock json_dumps environ cli in
    (snd r = Exit 0 ->
     fst r = [HelpOnStdout] \/ exists url text, fst r = [HttpGet url; Stdout text])
    /\ (snd r <> Exit 0 -> filter is_stdout (fst r) = [])
    /\ (List.length (filter is_request (fst r)) <= 1)%nat
    /\ (forall code, snd r = Exit code -> code = 0 \/ code = 1 \/ code = 2)%Z
    /\ (forall default_board,
          Cli.help cli = true ->
          py_int (env environ "NEXTCLOUD_BOARD_ID" "0") = Ok default_board ->
          r = ([HelpOnStdout], Exit 0))
    /\ (Cli.help cli = false -> fst r <> [HelpOnStdout]).
Proof.
  intros py_int session_get parse iso astz strf clock dumps environ cli r.
  assert (Hhelp : forall d, Cli.help cli = true ->
                            py_int (env environ "NEXTCLOUD_BOARD_ID" "0") = Ok d ->
                            r = ([HelpOnStdout], Exit 0)).
  { intros d Hh Hd. subst r. unfold main, parse_args. now rewrite Hd, Hh. }
  assert (Hnohelp : Cli.help cli = false -> fst r <> [HelpOnStdout]).
  { intros Hh. subst r. unfold main.
    destruct (py_int (env environ "NEXTCLOUD_BOARD_ID" "0")) as [d|e]; [|discriminate].
    destruct (parse_args py_int environ d cli) as [args|[|name]] eqn:Hp; [| |discriminate].
    - destruct (run_shapes session_get parse iso astz strf clock dumps args)
        as [[_ [[t E] | [[e E] | [t E]]]] | [_ E]]; rewrite E; discriminate.
    - unfold parse_args in Hp. rewrite Hh in Hp.
      destruct (match Cli.board_id cli with Some s => py_int s | None => Ok d end);
        [|discriminate].
      destruct (negb _); discriminate. }
  repeat match goal with |- _ /\ _ => split end; try assumption.
  all: subst r.
  all: destruct (main_shapes py_int session_get parse iso astz strf clock dumps environ
                   cli)
    as [(u & t & E) | [(u & e & E) | [(u & t & E) | [(t & E) | [(o & E) | [(e & E) | E]]]]]];
    rewrite E; cbn [fst snd filter is_stdout is_request List.length].
  all: try (intros; discriminate); try congruence; eauto.
  all: try (intros code [= <-]; auto).
Qed.

(** X16: with everything configured, a transport failure and an HTTP
    status from 400 to 599 both end the run with status 1, after the one
    request, with a message on the error stream that names the board and
    gives the cause: the text of the transport error, or the status, its
    kind, the reason and the address for an HTTP status; nothing is
    printed on the output stream. *)
Theorem main_fetch_failure_exits_1 :
  forall py_int session_get dateparser_parse isoformat astimezone strftime clock
         json_dumps (environ : environment) (cli : Cli.t) (default_board : Z)
         (args : Args.t),
    py_int (env environ "NEXTCLOUD_BOARD_ID" "0") = Ok default_board ->
    parse_args py_int environ default_board cli = inl args ->
    missing_fields args = [] ->
    let url := stacks_url (Args.url args) (Args.board_id args) in
    let failed (cause : string) :=
      main py_int session_get dateparser_parse isoformat astimezone strftime clock
        json_dumps environ cli
      = ([HttpGet url;
          Stderr ("Error fetching stacks for board " ++ str_int (Args.board_id args)
                  ++ ": " ++ cause)%string],
         Exit 1) in
    (forall cause, session_get url = Raise (RequestException cause) -> failed cause)
    /\ (forall r, session_get url = Ok r ->
                  (400 <= Response.status_code r < 600)%Z ->
                  failed (http_error_text r)).
Proof.
  intros py_int session_get parse iso astz strf clock dumps environ cli d args
         Hd Hp Hnone url failed.
  subst failed. cbv beta.
  rewrite (main_parsed py_int session_get parse iso astz strf clock dumps
             environ cli Hd Hp).
  unfold run. rewrite Hnone. cbn [nonempty].
  unfold fetch_stacks, rbind. fold url.
  split.
  - intros cause E. now rewrite E.
  - intros r E [Hlo Hhi]. rewrite E. unfold get_json.
    apply Z.leb_le in Hlo. apply Z.ltb_lt in Hhi. now rewrite Hlo, Hhi.
Qed.

Lemma main_fetch_failure_exits_1_witness :
  Sample.main Sample.environ board_five_options
  = ([HttpGet (stacks_url "https://cloud.example.com/" 5);
      Stderr "Error fetching stacks for board 5: unreachable"], Exit 1)
  /\ main Sample.py_int not_found_server Sample.dateparser_parse Sample.isoformat
       Sample.astimezone Sample.strftime Sample.clock Sample.json_dumps
       Sample.environ board_five_options
     = ([HttpGet (stacks_url "https://cloud.example.com/" 5);
         Stderr ("Error fetching stacks for board 5: 404 Client Error: Not Found "
                 ++ "for url: https://cloud.example.com/index.php/apps/deck/api/v1.1"
                 ++ "/boards/5/stacks")],
        Exit 1).
Proof.
  split.
  - apply (proj1 (main_fetch_failure_exits_1
                    Sample.py_int Sample.session_get Sample.dateparser_parse
                    Sample.isoformat Sample.astimezone Sample.strftime Sample.clock
                    Sample.json_dumps Sample.environ board_five_options
                    eq_refl eq_refl eq_refl) "unreachable"%string).
    reflexivity.
  - apply (proj2 (main_fetch_failure_exits_1
                    Sample.py_int not_found_server Sample.dateparser_parse
                    Sample.isoformat Sample.astimezone Sample.strftime Sample.clock
                    Sample.json_dumps Sample.environ board_five_options
                    eq_refl eq_refl eq_refl)
             (Response.mk 404 "Not Found"
                (stacks_url "https://cloud.example.com/" 5) (Raise ValueError))).
    + reflexivity.
    + split; [discriminate | reflexivity].
Defined.

(** X17: of the output flags only the first that is set in the order
    json, markdown, pango, color counts: the run is the one with the
    flags after it cleared. *)
Theorem run_mode_precedence :
  forall session_get dateparser_parse isoformat astimezone strftime clock json_dumps
         (args : Args.t),
    run session_get dateparser_parse isoformat astimezone strftime clock json_dumps args
    = run session_get dateparser_parse isoformat astimezone strftime clock json_dumps
        (effective_mode args).
Proof.
  intros session_get parse iso astz strf clock dumps args.
  unfold run.
  change (missing_fields (effective_mode args)) with (missing_fields args).
  cbn [effective_mode Args.url Args.board_id Args.include_archived Args.json
       Args.markdown Args.pango Args.color Args.show_owner Args.date_format].
  destruct (Args.json args), (Args.markdown args), (Args.pango args),
    (Args.color args); reflexivity.
Qed.

(** X18: with everything configured and the stacks fetched, a run in the
    json, markdown, colored or plain mode prints one text and leaves with
    status 0, whatever the stacks hold. *)
Theorem main_succeeds_outside_pango :
  forall py_int session_get dateparser_parse isoformat astimezone strftime clock
         json_dumps (environ : environment) (cli : Cli.t) (default_board : Z)
         (args : Args.t) (stacks : list RawStack.t),
    py_int (env environ "NEXTCLOUD_BOARD_ID" "0") = Ok default_board ->
    parse_args py_int environ default_board cli = inl args ->
    missing_fields args = [] ->
    fetch_stacks session_get (Args.url args) (Args.board_id args) = Ok stacks ->
    (Args.json args = true \/ Args.markdown args = true \/ Args.pango args = false) ->
    exists text : string,
      main py_int session_get dateparser_parse isoformat astimezone strftime clock
        json_dumps environ cli
      = ([HttpGet (stacks_url (Args.url args) (Args.board_id args)); Stdout text],
         Exit 0).
Proof.
  intros py_int session_get parse iso astz strf clock dumps environ cli d args stacks
         Hd Hp Hnone Hfetch Hmode.
  rewrite (main_parsed py_int session_get parse iso astz strf clock dumps
             environ cli Hd Hp).
  unfold run. rewrite Hnone, Hfetch. cbn [nonempty].
  rewrite build_grouped_model_returns.
  destruct (text_renderers_return iso astz strf clock
              (Args.show_owner args) (Args.date_format args)
              (normalized_aware parse (Args.include_archived args)
                 (sorted stacks stack_key)))
    as (Hplain & Hcolor & Hmd).
  destruct (Args.json args); [eexists; reflexivity|].
  unfold print_rendered.
  destruct (Args.markdown args).
  { destruct (Hmd 0%nat) as (t & n' & E). rewrite E. eexists. reflexivity. }
  destruct (Args.pango args); [destruct Hmode as [H|[H|H]]; discriminate|].
  destruct (Args.color args).
  - destruct (Hcolor 0%nat) as (t & n' & E). rewrite E. eexists. reflexivity.
  - destruct (Hplain 0%nat) as (t & n' & E). rewrite E. eexists. reflexivity.
Qed.

Lemma main_succeeds_outside_pango_witness :
  exists text : string,
    main Sample.py_int sample_server sample_parse Sample.isoformat Sample.astimezone
      Sample.strftime Sample.clock Sample.json_dumps Sample.environ board_five_options
    = ([HttpGet (stacks_url "https://cloud.example.com/" 5); Stdout text], Exit 0).
Proof.
  apply (main_succeeds_outside_pango
           Sample.py_int sample_server sample_parse Sample.isoformat Sample.astimezone
           Sample.strftime Sample.clock Sample.json_dumps
           Sample.environ board_five_options (stacks := sample_board)
           eq_refl eq_refl eq_refl eq_refl).
  right. right. reflexivity.
Defined.

(** X19: a variable of the environment that is set to the empty text
    counts as not set, for the whole run. *)
Theorem main_ignores_empty_variables :
  forall py_int session_get dateparser_parse isoformat astimezone strftime clock
         json_dumps (environ : environment) (cli : Cli.t),
    main py_int session_get dateparser_parse isoformat astimezone strftime clock
      json_dumps (unset_empty environ) cli
    = main py_int session_get dateparser_parse isoformat astimezone strftime clock
        json_dumps environ cli.
Proof.
  intros py_int session_get parse iso astz strf clock dumps environ cli.
  unfold main, parse_args. now rewrite !env_unset_empty.
Qed.

(** X20: the default of the board id is computed from the environment
    before the command line is read, so a value of NEXTCLOUD_BOARD_ID
    that [int] rejects ends the run with that exception and nothing
    done, even with a board id on the command line. *)
Theorem main_bad_board_variable_is_fatal :
  forall py_int session_get dateparser_parse isoformat astimezone strftime clock
         json_dumps (environ : environment) (cli : Cli.t) (e : exn),
    py_int (env environ "NEXTCLOUD_BOARD_ID" "0") = Raise e ->
    main py_int session_get dateparser_parse isoformat astimezone strftime clock
      json_dumps environ cli
    = ([], Uncaught e).
Proof.
  intros py_int session_get parse iso astz strf clock dumps environ cli e He.
  unfold main. now rewrite He.
Qed.

Lemma main_bad_board_variable_is_fatal_witness :
  Sample.main bad_board_environ board_five_options = ([], Uncaught ValueError).
Proof.
  exact (main_bad_board_variable_is_fatal
           Sample.py_int Sample.session_get Sample.dateparser_parse Sample.isoformat
           Sample.astimezone Sample.strftime Sample.clock Sample.json_dumps
           bad_board_environ board_five_options eq_refl).
Defined.

(** ** Trimming *)

Lemma lstrip_clear (p : ascii -> bool) (s : string) :
  clear_of p (first_char (lstrip p s)).
Proof.
  destruct (lstrip p s) as [|c rest] eqn:E; cbn; [exact I|].
  now apply lstrip_head in E.
Qed.

Lemma rstrip_clear_last (p : ascii -> bool) (s : string) :
  clear_of p (last_char (rstrip p s)).
Proof.
  unfold last_char, rstrip. rewrite rev_string_involutive. apply lstrip_clear.
Qed.

Lemma rstrip_keeps_first (p : ascii -> bool) (s : string) :
  clear_of p (first_char s) -> clear_of p (first_char (rstrip p s)).
Proof.
  intros Hs. destruct (rstrip_split p s) as (d & Hd & _).
  destruct (rstrip p s) as [|c rest]; cbn; [exact I|].
  rewrite Hd in Hs. exact Hs.
Qed.

(** X21: a text the plain or the colored formatter returns does not
    start with a line break, and a text the markdown formatter returns
    neither starts nor ends with a blank or a line break. *)
Theorem renderers_trim :
  forall isoformat astimezone strftime clock (grouped : list Block.t)
         (show_owner : bool) (datefmt : string) (n : nat),
    match plain_output isoformat astimezone strftime clock grouped show_owner datefmt n
    with
    | Ok (text, _) => clear_of is_newline (first_char text)
    | Raise _ => True
    end
    /\ match colorize_output isoformat astimezone strftime clock grouped show_owner
               datefmt n
       with
       | Ok (text, _) => clear_of is_newline (first_char text)
       | Raise _ => True
       end
    /\ match markdown_output isoformat astimezone strftime clock grouped show_owner
               datefmt n
       with
       | Ok (text, _) =>
           clear_of is_space (first_char text) /\ clear_of is_space (last_char text)
       | Raise _ => True
       end.
Proof.
  intros iso astz strf clock grouped show df n.
  unfold plain_output, colorize_output, markdown_output, bind, ret.
  repeat split.
  - destruct (forM grouped _ n) as [[ls n']|e]; [apply lstrip_clear | exact I].
  - destruct (forM grouped _ n) as [[ls n']|e]; [apply lstrip_clear | exact I].
  - destruct (forM grouped _ n) as [[ls n']|e]; [|exact I].
    unfold strip. split; [apply rstrip_keeps_first, lstrip_clear | apply rstrip_clear_last].
Qed.

Example renderers_trim_sample :
  render plain_output
    [ {| Block.stack := Stack.mk (Some 1%Z) (Some "Backlog"%string) None;
         Block.cards := [] |} ]
  = Ok (("=== Backlog ===" ++ NL ++ "(no cards)")%string, 0%nat)
  /\ render markdown_output
       [ {| Block.stack := Stack.mk (Some 1%Z) (Some "Backlog"%string) None;
            Block.cards := [Card.mk None None None false None None [] []] |} ]
     = Ok (("## Backlog" ++ NL ++ "- **(untitled)**")%string, 0%nat).
Proof. split; reflexivity. Qed.
